(** * Solana-AMM-Bot: token creation, wallet and transfer scripts

    A shallow embedding of the three JavaScript sources

      - [tokenFun.js]   ([createTokenWithMetadata]),
      - [walletFun.js]  ([createWalletKeypair], [getWalletBalance], [transferSOL]),
      - the extended wallet script ([transferToken]),

    together with the properties of the transaction builders stated in the
    specification.

    JavaScript numbers are IEEE-754 binary64 values; they are modelled with
    the executable [spec_float] operations of the Standard Library
    (precision 53, maximal exponent 1024, round to nearest even), so that
    [*], [/] and [<] behave as they do in the scripts.  An instruction of
    [@solana/web3.js] or [@solana/spl-token] is a constructor holding the
    arguments it was built from; the builders that encode an amount as an
    unsigned 64-bit integer or a decimal count as a byte throw on a number
    that is none.  The other calls that may throw or that talk to the RPC
    node are fields of the records [Sdk] and [Connection] and return a
    [Result].  Console output is not modelled. *)

From Stdlib Require Import ZArith List String Ascii Bool Lia.
From Stdlib Require Import Floats.SpecFloat.
Import ListNotations.

Local Open Scope Z_scope.

(* ================================================================== *)
(** ** JavaScript numbers *)

Module JsNumber.

Definition Number := spec_float.

Definition prec : Z := 53.
Definition emax : Z := 1024.

(** The Number nearest to an integer (numeric literals, JSON integers). *)
Definition of_Z (z : Z) : Number := binary_normalize prec emax z 0 false.

Definition NaN : Number := S754_nan.

(** [x * y], [x / y] and [x < y] on Numbers. *)
Definition mul (x y : Number) : Number := SFmul prec emax x y.
Definition div (x y : Number) : Number := SFdiv prec emax x y.
Definition lt (x y : Number) : bool := SFltb x y.

(** A decimal literal [m / 10^k] with few digits, such as [0.005]: numerator
    and denominator are exact, so the correctly rounded quotient is the
    Number the literal denotes. *)
Definition decimal (m : Z) (k : Z) : Number := div (of_Z m) (of_Z (10 ^ k)).

(** [Math.pow(10, d)] for a decimal count [d]: the Number nearest to
    [10^d] (exact up to [d = 22]). *)
Definition Math_pow10 (d : N) : Number := of_Z (10 ^ Z.of_N d).

(** [Math.round(x)]: the integer nearest to [x], ties towards +infinity;
    the sign of a zero result is the sign of [x]. *)
Definition Math_round (x : Number) : Number :=
  match x with
  | S754_finite s m e =>
      if 0 <=? e then x
      else
        let k := - e in
        let v := if s then Z.neg m else Z.pos m in
        let r := (2 * v + 2 ^ k) / 2 ^ (k + 1) in
        if r =? 0 then S754_zero s else of_Z r
  | _ => x
  end.

(** The integer a Number denotes, when it denotes one. *)
Definition to_Z (x : Number) : option Z :=
  match x with
  | S754_zero _ => Some 0
  | S754_finite s m e =>
      let sg := if s then -1 else 1 in
      if 0 <=? e then Some (sg * (Z.pos m * 2 ^ e))
      else if Z.pos m mod 2 ^ (- e) =? 0 then Some (sg * (Z.pos m / 2 ^ (- e)))
      else None
  | _ => None
  end.

Definition isInteger (x : Number) : bool :=
  match to_Z x with Some _ => true | None => false end.

(** Truncation towards zero of a finite Number ([ToIntegerOrInfinity]). *)
Definition trunc (x : Number) : option Z :=
  match x with
  | S754_zero _ => Some 0
  | S754_finite s m e =>
      let sg := if s then -1 else 1 in
      if 0 <=? e then Some (sg * (Z.pos m * 2 ^ e))
      else Some (sg * (Z.pos m / 2 ^ (- e)))
  | _ => None
  end.

(** [ToUint8]: the conversion applied to every element stored into a
    [Uint8Array]; [NaN] and the infinities become [0]. *)
Definition ToUint8 (x : Number) : Z :=
  match trunc x with
  | Some z => z mod 256
  | None => 0
  end.

End JsNumber.

(* ================================================================== *)
(** ** JavaScript strings

    A string is a sequence of code units; the model keeps the code units
    below 256, one [ascii] each. *)

Module JsString.

Import JsNumber.

Definition code (c : ascii) : Z := Z.of_N (N_of_ascii c).
Definition char (n : Z) : ascii := ascii_of_N (Z.to_N n).

(** Value of a digit character in radixes up to 36. *)
Definition digit_value (c : ascii) : option Z :=
  let n := code c in
  if (48 <=? n) && (n <=? 57) then Some (n - 48)
  else if (97 <=? n) && (n <=? 122) then Some (n - 87)
  else if (65 <=? n) && (n <=? 90) then Some (n - 55)
  else None.

Definition is_hex_digit (c : ascii) : bool :=
  match digit_value c with
  | Some d => d <? 16
  | None => false
  end.

(** White space skipped by [parseInt]: TAB, LF, VT, FF, CR, SP, NBSP. *)
Definition is_white_space (c : ascii) : bool :=
  let n := code c in
  ((9 <=? n) && (n <=? 13)) || (n =? 32) || (n =? 160).

(** Line terminators, which [.] in a regular expression does not match. *)
Definition is_line_terminator (c : ascii) : bool :=
  let n := code c in (n =? 10) || (n =? 13).

Fixpoint skip_white_space (s : string) : string :=
  match s with
  | String c r => if is_white_space c then skip_white_space r else s
  | EmptyString => s
  end.

(** The longest prefix of digits of the radix, read as an integer. *)
Fixpoint digits_prefix (radix : Z) (s : string) (acc : option Z) : option Z :=
  match s with
  | String c r =>
      match digit_value c with
      | Some d =>
          if d <? radix
          then digits_prefix radix r
                 (Some (radix * match acc with Some a => a | None => 0 end + d))
          else acc
      | None => acc
      end
  | EmptyString => acc
  end.

(** [parseInt(s, radix)] for radix 10 or 16. *)
Definition parseInt (s : string) (radix : Z) : Number :=
  let s1 := skip_white_space s in
  let '(neg, s2) :=
    match s1 with
    | String "-" r => (true, r)
    | String "+" r => (false, r)
    | _ => (false, s1)
    end in
  let s3 :=
    if radix =? 16 then
      match s2 with
      | String "0" (String "x" r) => r
      | String "0" (String "X" r) => r
      | _ => s2
      end
    else s2 in
  match digits_prefix radix s3 None with
  | None => NaN
  | Some n =>
      if neg then (if n =? 0 then S754_zero true else of_Z (- n)) else of_Z n
  end.

(** [s.match(/.{1,2}/g)]: the successive chunks of two characters (one at
    the end of a run of odd length), line terminators skipped.  The empty
    list stands for [null]. *)
Fixpoint match_dot_1_2 (s : string) : list string :=
  match s with
  | EmptyString => []
  | String c1 r1 =>
      if is_line_terminator c1 then match_dot_1_2 r1
      else
        match r1 with
        | EmptyString => [String c1 EmptyString]
        | String c2 r2 =>
            if is_line_terminator c2
            then String c1 EmptyString :: match_dot_1_2 r2
            else String c1 (String c2 EmptyString) :: match_dot_1_2 r2
        end
  end.

(** [s.toLowerCase()] on the letters A-Z. *)
Definition lower_char (c : ascii) : ascii :=
  let n := code c in
  if (65 <=? n) && (n <=? 90) then char (n + 32) else c.

Fixpoint toLowerCase (s : string) : string :=
  match s with
  | EmptyString => EmptyString
  | String c r => String (lower_char c) (toLowerCase r)
  end.

Fixpoint all_chars (p : ascii -> bool) (s : string) : bool :=
  match s with
  | EmptyString => true
  | String c r => p c && all_chars p r
  end.

(** A string made of hexadecimal digits only. *)
Definition is_hex_string (s : string) : bool := all_chars is_hex_digit s.

End JsString.

(* ================================================================== *)
(** ** Node.js buffers *)

Module Buffer.

Import JsNumber JsString.

(** [Buffer.from(s, 'hex')]: one byte per pair of hexadecimal digits,
    stopping at the first pair that is not one. *)
Fixpoint from_hex (s : string) : list Z :=
  match s with
  | String c1 (String c2 r) =>
      match digit_value c1, digit_value c2 with
      | Some h, Some l =>
          if (h <? 16) && (l <? 16) then (16 * h + l) :: from_hex r else []
      | _, _ => []
      end
  | _ => []
  end.

Definition hex_char (n : Z) : ascii :=
  if n <? 10 then char (48 + n) else char (87 + n).

(** [buf.toString('hex')]: two lower-case digits per byte. *)
Fixpoint toString_hex (bytes : list Z) : string :=
  match bytes with
  | [] => EmptyString
  | b :: r => String (hex_char (b / 16)) (String (hex_char (b mod 16)) (toString_hex r))
  end.

End Buffer.

(* ================================================================== *)
(** ** Exceptions and results *)

Module Js.

Import JsNumber.

(** The message of an error.  A template literal is kept as the list of
    its parts, the interpolated numbers unformatted. *)
Inductive Part :=
| Lit (text : string)
| Val (n : Number).

Definition Message := list Part.

Record JsError := mkError { name : string; message : Message }.

Definition Error (msg : Message) : JsError := mkError "Error" msg.
Definition TypeError (msg : string) : JsError := mkError "TypeError" [Lit msg].
Definition ReferenceError (ident : string) : JsError :=
  mkError "ReferenceError" [Lit ident; Lit " is not defined"].

(** The outcome of evaluating an expression: a value or a thrown error. *)
Inductive Result (A : Type) :=
| Ok (a : A)
| Throw (e : JsError).

Arguments Ok {A} a.
Arguments Throw {A} e.

(** Resolution of a free identifier against the bindings of a module:
    an identifier that the module neither imports nor declares throws a
    [ReferenceError] when it is evaluated. *)
Definition resolve {A : Type} (scope : list string) (ident : string) (binding : A) : Result A :=
  if existsb (String.eqb ident) scope then Ok binding else Throw (ReferenceError ident).

End Js.

(* ================================================================== *)
(** ** The Solana SDK as the scripts use it *)

Module Solana.

Import JsNumber Js.

Inductive PublicKey := Pubkey (base58 : string).

Definition PublicKey_toString (k : PublicKey) : string :=
  match k with Pubkey s => s end.

Definition PublicKey_eqb (a b : PublicKey) : bool :=
  String.eqb (PublicKey_toString a) (PublicKey_toString b).

Record Keypair := mkKeypair { publicKey : PublicKey; secretKey : list Z }.

Definition Blockhash := string.
Definition Signature := string.

(** Constants exported by the SDK. *)
Definition LAMPORTS_PER_SOL : Number := of_Z 1000000000.
Definition MINT_SIZE : Z := 82.
Definition TOKEN_PROGRAM_ID : PublicKey :=
  Pubkey "TokenkegQfeZyiNwAJbNbGKPFXCWuBvf9Ss623VQ5DA".
Definition ASSOCIATED_TOKEN_PROGRAM_ID : PublicKey :=
  Pubkey "ATokenGPvbdGVxr1b2hvZbsiqW5xWH25efTNsLJA8knL".

Record MetadataAccounts := {
  ma_metadata : PublicKey;
  ma_mint : PublicKey;
  ma_mintAuthority : PublicKey;
  ma_payer : PublicKey;
  ma_updateAuthority : PublicKey
}.

Record MetadataArgs := {
  md_name : string;
  md_symbol : string;
  md_uri : string;
  md_sellerFeeBasisPoints : Z;
  md_isMutable : bool
}.

(** The instructions the scripts build, each with the arguments it is
    called with. *)
Inductive Instruction :=
| SetComputeUnitLimit (units : Z)
| SetComputeUnitPrice (microLamports : Z)
| SystemCreateAccount (fromPubkey newAccountPubkey : PublicKey)
    (space : Z) (lamports : Number) (programId : PublicKey)
| SystemTransfer (fromPubkey toPubkey : PublicKey) (lamports : Number)
| InitializeMint (mint : PublicKey) (decimals : N)
    (mintAuthority freezeAuthority programId : PublicKey)
| CreateAssociatedTokenAccount
    (payer associatedToken owner mint programId associatedTokenProgramId : PublicKey)
| MintTo (mint destination authority : PublicKey) (amount : Number)
    (multiSigners : list Keypair) (programId : PublicKey)
| TransferChecked (source mint destination owner : PublicKey)
    (amount : Number) (decimals : N)
    (multiSigners : list Keypair) (programId : PublicKey)
| CreateMetadataAccountV3 (accounts : MetadataAccounts) (args : MetadataArgs).

Record Transaction := mkTransaction {
  instructions : list Instruction;
  recentBlockhash : option Blockhash;
  feePayer : option PublicKey
}.

(** [new Transaction()] *)
Definition empty_Transaction : Transaction := mkTransaction [] None None.

Record ConfirmOptions := { commitment : string; maxRetries : Z }.

Record AccountInfo := { ai_lamports : Number; ai_owner : PublicKey }.

Record MintInfo := { mint_decimals : N; mint_supply : Z }.

(** A seed of a program-derived address. *)
Inductive Seed :=
| SeedText (s : string)
| SeedKey (k : PublicKey).

(** What the RPC node answers through a [Connection]. *)
Record Connection := {
  getBalance : PublicKey -> Result Number;
  getAccountInfo : PublicKey -> Result (option AccountInfo);
  (** [(await getTokenAccountBalance(a)).value.amount], a decimal string *)
  getTokenAccountBalance : PublicKey -> Result string;
  getLatestBlockhash : Result Blockhash;
  (** [getMint(connection, mint)] *)
  getMint : PublicKey -> Result MintInfo;
  (** [getMinimumBalanceForRentExemptMint(connection)] *)
  getMinimumBalanceForRentExemptMint : Result Number;
  (** the node's verdict on a submitted transaction *)
  confirm : Transaction -> list Keypair -> option ConfirmOptions -> Result Signature
}.

(** The SDK calls that can throw, and the source of fresh keys. *)
Record Sdk := {
  (** [Keypair.fromSecretKey(bytes)] *)
  Keypair_fromSecretKey : list Z -> Result Keypair;
  (** the key pair [Keypair.generate()] draws in this invocation *)
  Keypair_generate : Keypair;
  (** [new PublicKey(base58)] *)
  new_PublicKey : string -> Result PublicKey;
  (** [getAssociatedTokenAddress(mint, owner)] *)
  getAssociatedTokenAddress : PublicKey -> PublicKey -> Result PublicKey;
  (** [PublicKey.findProgramAddressSync(seeds, programId)] *)
  findProgramAddressSync : list Seed -> PublicKey -> Result (PublicKey * Z);
  (** [new Connection(endpoint, 'confirmed')] *)
  new_Connection : string -> Result Connection;
  (** the error an instruction builder, given by its name, throws on a
      number that its data layout cannot encode *)
  encoding_error : string -> Number -> JsError
}.

(** A Number that an unsigned 64-bit field takes: an integer ([BigInt]
    converts no other Number) from 0 to [2^64 - 1]. *)
Definition is_u64 (x : Number) : bool :=
  match to_Z x with
  | Some z => (0 <=? z) && (z <? 2 ^ 64)
  | None => false
  end.

(** A decimal count that a byte takes. *)
Definition is_u8 (d : N) : bool := (d <? 256)%N.

(** [SystemProgram.transfer({fromPubkey, toPubkey, lamports})] *)
Definition SystemProgram_transfer (sdk : Sdk) (fromPubkey toPubkey : PublicKey)
    (lamports : Number) : Result Instruction :=
  if is_u64 lamports then Ok (SystemTransfer fromPubkey toPubkey lamports)
  else Throw (encoding_error sdk "SystemProgram.transfer" lamports).

(** [createInitializeMintInstruction(mint, decimals, mintAuthority,
    freezeAuthority, programId)] *)
Definition createInitializeMintInstruction (sdk : Sdk) (mint : PublicKey) (decimals : N)
    (mintAuthority freezeAuthority programId : PublicKey) : Result Instruction :=
  if is_u8 decimals
  then Ok (InitializeMint mint decimals mintAuthority freezeAuthority programId)
  else Throw (encoding_error sdk "createInitializeMintInstruction"
                (of_Z (Z.of_N decimals))).

(** [createMintToInstruction(mint, destination, authority, amount,
    multiSigners, programId)] *)
Definition createMintToInstruction (sdk : Sdk) (mint destination authority : PublicKey)
    (amount : Number) (multiSigners : list Keypair) (programId : PublicKey)
  : Result Instruction :=
  if is_u64 amount
  then Ok (MintTo mint destination authority amount multiSigners programId)
  else Throw (encoding_error sdk "createMintToInstruction" amount).

(** [createTransferCheckedInstruction(source, mint, destination, owner,
    amount, decimals, multiSigners, programId)] *)
Definition createTransferCheckedInstruction (sdk : Sdk)
    (source mint destination owner : PublicKey) (amount : Number) (decimals : N)
    (multiSigners : list Keypair) (programId : PublicKey) : Result Instruction :=
  if is_u64 amount then
    if is_u8 decimals
    then Ok (TransferChecked source mint destination owner amount decimals
               multiSigners programId)
    else Throw (encoding_error sdk "createTransferCheckedInstruction"
                  (of_Z (Z.of_N decimals)))
  else Throw (encoding_error sdk "createTransferCheckedInstruction" amount).

(** [config.js] is not part of the sources; its exports are parameters. *)
Record TokenMetadata := {
  tm_name : string;
  tm_symbol : string;
  tm_uri : string;
  tm_sellerFeeBasisPoints : Z
}.

Record TokenConfig := { tc_decimals : N; tc_initialSupply : Number }.

Record Config := {
  SolanaNetwork : string;
  TOKEN_METADATA : TokenMetadata;
  TOKEN_CONFIG : TokenConfig
}.

End Solana.

(* ================================================================== *)
(** ** Effects: the transaction under construction and the submissions *)

Module Eff.

Import Js Solana.

Record Submission := {
  sub_transaction : Transaction;
  sub_signers : list Keypair;
  sub_options : option ConfirmOptions
}.

(** The state an operation acts on: the [Transaction] object it builds
    and mutates, and the transactions handed to the network so far. *)
Record Process := mkProcess {
  transaction : Transaction;
  submitted : list Submission
}.

Definition initial : Process := mkProcess empty_Transaction [].

Definition M (A : Type) : Type := Process -> Result A * Process.

Definition ret {A} (a : A) : M A := fun st => (Ok a, st).

Definition bind {A B} (m : M A) (k : A -> M B) : M B :=
  fun st =>
    match m st with
    | (Ok a, st') => k a st'
    | (Throw e, st') => (Throw e, st')
    end.

Definition throw {A} (e : JsError) : M A := fun st => (Throw e, st).

(** An SDK or RPC call that reads but does not change the state. *)
Definition lift {A} (r : Result A) : M A := fun st => (r, st).

(** [try { body } catch (error) { handler }] *)
Definition try_catch {A} (body : M A) (handler : JsError -> M A) : M A :=
  fun st =>
    match body st with
    | (Ok a, st') => (Ok a, st')
    | (Throw e, st') => handler e st'
    end.

(** [new Transaction()] *)
Definition new_Transaction : M unit :=
  fun st => (Ok tt, mkProcess empty_Transaction (submitted st)).

(** [transaction.add(instruction)] *)
Definition add (i : Instruction) : M unit :=
  fun st =>
    let tx := transaction st in
    (Ok tt,
     mkProcess (mkTransaction (instructions tx ++ [i]) (recentBlockhash tx) (feePayer tx))
               (submitted st)).

(** [transaction.recentBlockhash = blockhash] *)
Definition set_recentBlockhash (b : Blockhash) : M unit :=
  fun st =>
    let tx := transaction st in
    (Ok tt,
     mkProcess (mkTransaction (instructions tx) (Some b) (feePayer tx)) (submitted st)).

(** [transaction.feePayer = key] *)
Definition set_feePayer (k : PublicKey) : M unit :=
  fun st =>
    let tx := transaction st in
    (Ok tt,
     mkProcess (mkTransaction (instructions tx) (recentBlockhash tx) (Some k)) (submitted st)).

(** [sendAndConfirmTransaction(connection, transaction, signers, options)]:
    the transaction is handed to the network, whatever the verdict. *)
Definition sendAndConfirmTransaction (connection : Connection)
    (signers : list Keypair) (options : option ConfirmOptions) : M Signature :=
  fun st =>
    let tx := transaction st in
    (confirm connection tx signers options,
     mkProcess tx (submitted st ++ [Build_Submission tx signers options])).

Declare Scope js_scope.
Delimit Scope js_scope with js.

Notation "x <- m ;; k" := (bind m (fun x => k))
  (at level 100, m at next level, right associativity) : js_scope.
Notation "m ;;; k" := (bind m (fun _ => k))
  (at level 100, right associativity) : js_scope.

End Eff.

(* ================================================================== *)
(** ** tokenFun.js *)

Module TokenFun.

Import JsNumber JsString Js Solana Eff.
Local Open Scope js_scope.
Local Open Scope string_scope.

(** Metaplex Token Metadata program id. *)
Definition TOKEN_METADATA_PROGRAM_ID : PublicKey :=
  Pubkey "metaqbxxUerdq28cj1RbAWkYQm3ybzjb6a8bt518x1s".

(** The identifiers visible inside [createTokenWithMetadata]: the names the
    module imports with [require], the constants and functions it declares,
    the function's parameter and local variables, and the globals it uses. *)
Definition module_bindings : list string :=
  [ "Connection"; "Keypair"; "Transaction"; "SystemProgram"; "LAMPORTS_PER_SOL";
    "sendAndConfirmTransaction"; "ComputeBudgetProgram"; "PublicKey";
    "TOKEN_PROGRAM_ID"; "ASSOCIATED_TOKEN_PROGRAM_ID";
    "createInitializeMintInstruction"; "createAssociatedTokenAccountInstruction";
    "createMintToInstruction"; "getAssociatedTokenAddress"; "MINT_SIZE";
    "getMinimumBalanceForRentExemptMint";
    "mplTokenMetadata"; "fs"; "config";
    "TOKEN_METADATA_PROGRAM_ID"; "rpcEndpoint"; "TOKEN_METADATA"; "TOKEN_CONFIG";
    "createTokenWithMetadata"; "main" ].

Definition local_bindings : list string :=
  [ "privateKey"; "secretKey"; "wallet"; "connection"; "balance"; "mintKeypair";
    "mint"; "associatedTokenAccount"; "metadataAddress"; "rentExemptBalance";
    "transaction"; "signature" ].

Definition global_bindings : list string :=
  [ "require"; "console"; "Uint8Array"; "Buffer"; "Math"; "parseInt" ].

Definition scope : list string :=
  (local_bindings ++ module_bindings ++ global_bindings)%list.

(** The [privateKey] argument: a hexadecimal string, or an array of
    numbers. *)
Inductive PrivateKey :=
| KeyString (s : string)
| KeyArray (a : list Number).

(** The bytes of the secret key:
    [new Uint8Array(privateKey.match(/.{1,2}/g).map(byte => parseInt(byte, 16)))]
    for a string ([match] gives [null] when nothing matches, and [null.map]
    throws), [Uint8Array.from(privateKey)] for an array. *)
Definition secretKey_of (privateKey : PrivateKey) : Result (list Z) :=
  match privateKey with
  | KeyString s =>
      match match_dot_1_2 s with
      | [] => Throw (TypeError "Cannot read properties of null (reading 'map')")
      | chunks => Ok (map (fun byte => ToUint8 (parseInt byte 16)) chunks)
      end
  | KeyArray a => Ok (map ToUint8 a)
  end.

(** The wallet the operation signs with. *)
Definition load_wallet (sdk : Sdk) (privateKey : PrivateKey) : Result Keypair :=
  match secretKey_of privateKey with
  | Ok secretKey => Keypair_fromSecretKey sdk secretKey
  | Throw e => Throw e
  end.

(** The value [createTokenWithMetadata] resolves to. *)
Inductive CreateResult :=
| Success (signature mint metadata tokenAccount explorerUrl transactionUrl : string)
| Failure (error : Message).

Definition createTokenWithMetadata (sdk : Sdk) (config : Config)
    (privateKey : PrivateKey) : M CreateResult :=
  let rpcEndpoint := SolanaNetwork config in
  let TOKEN_METADATA := TOKEN_METADATA config in
  let TOKEN_CONFIG := TOKEN_CONFIG config in
  try_catch
    (wallet <- lift (load_wallet sdk privateKey) ;;
     connection <- lift (new_Connection sdk rpcEndpoint) ;;
     balance <- lift (getBalance connection (publicKey wallet)) ;;
     let mintKeypair := Keypair_generate sdk in
     let mint := publicKey mintKeypair in
     associatedTokenAccount <-
       lift (getAssociatedTokenAddress sdk mint (publicKey wallet)) ;;
     pda <- lift (findProgramAddressSync sdk
                    [SeedText "metadata"; SeedKey TOKEN_METADATA_PROGRAM_ID; SeedKey mint]
                    TOKEN_METADATA_PROGRAM_ID) ;;
     let metadataAddress := fst pda in
     rentExemptBalance <- lift (getMinimumBalanceForRentExemptMint connection) ;;
     new_Transaction ;;;
     (* 1 *)
     add (SetComputeUnitLimit 250000) ;;;
     (* 2 *)
     add (SetComputeUnitPrice 200000) ;;;
     (* 3 *)
     add (SystemCreateAccount (publicKey wallet) mint MINT_SIZE rentExemptBalance
            TOKEN_PROGRAM_ID) ;;;
     (* 4 *)
     initializeMint <-
       lift (createInitializeMintInstruction sdk mint (tc_decimals TOKEN_CONFIG)
               (publicKey wallet) (publicKey wallet) TOKEN_PROGRAM_ID) ;;
     add initializeMint ;;;
     (* 5 *)
     add (CreateAssociatedTokenAccount (publicKey wallet) associatedTokenAccount
            (publicKey wallet) mint TOKEN_PROGRAM_ID ASSOCIATED_TOKEN_PROGRAM_ID) ;;;
     (* 6 *)
     mintTo <-
       lift (createMintToInstruction sdk mint associatedTokenAccount (publicKey wallet)
               (mul (tc_initialSupply TOKEN_CONFIG)
                    (Math_pow10 (tc_decimals TOKEN_CONFIG)))
               [] TOKEN_PROGRAM_ID) ;;
     add mintTo ;;;
     (* 7 *)
     createCreateMetadataAccountV3Instruction <-
       lift (resolve scope "createCreateMetadataAccountV3Instruction"
               CreateMetadataAccountV3) ;;
     add (createCreateMetadataAccountV3Instruction
            {| ma_metadata := metadataAddress;
               ma_mint := mint;
               ma_mintAuthority := publicKey wallet;
               ma_payer := publicKey wallet;
               ma_updateAuthority := publicKey wallet |}
            {| md_name := tm_name TOKEN_METADATA;
               md_symbol := tm_symbol TOKEN_METADATA;
               md_uri := tm_uri TOKEN_METADATA;
               md_sellerFeeBasisPoints := tm_sellerFeeBasisPoints TOKEN_METADATA;
               md_isMutable := true |}) ;;;
     signature <-
       sendAndConfirmTransaction connection [wallet; mintKeypair]
         (Some {| commitment := "confirmed"; maxRetries := 3 |}) ;;
     ret (Success signature
            (PublicKey_toString mint)
            (PublicKey_toString metadataAddress)
            (PublicKey_toString associatedTokenAccount)
            ("https://solscan.io/token/" ++ PublicKey_toString mint)
            ("https://solscan.io/tx/" ++ signature)))
    (fun error => ret (Failure (message error))).

End TokenFun.

(* ================================================================== *)
(** ** walletFun.js, with the token transfer of its extended copy *)

Module WalletFun.

Import JsNumber JsString Js Solana Eff.
Local Open Scope js_scope.
Local Open Scope string_scope.

Record Wallet := { w_publicKey : string; w_privateKey : string }.

Definition createWalletKeypair (sdk : Sdk) : Wallet :=
  let keypair := Keypair_generate sdk in
  {| w_publicKey := PublicKey_toString (publicKey keypair);
     w_privateKey := Buffer.toString_hex (secretKey keypair) |}.

Definition getWalletBalance (sdk : Sdk) (config : Config) (publicKeyStr : string)
  : M Number :=
  try_catch
    (connection <- lift (new_Connection sdk (SolanaNetwork config)) ;;
     publicKey <- lift (new_PublicKey sdk publicKeyStr) ;;
     balanceInLamports <- lift (getBalance connection publicKey) ;;
     let balanceInSOL := div balanceInLamports (of_Z 1000000000) in
     ret balanceInSOL)
    (fun error => throw error).

(** [new Error(`余额不足: ${balanceInSOL} SOL, 需要: ${amountSOL} SOL`)] *)
Definition insufficient_SOL (balanceInSOL amountSOL : Number) : JsError :=
  Error [Lit "余额不足: "; Val balanceInSOL; Lit " SOL, 需要: ";
         Val amountSOL; Lit " SOL"].

(** [new Error(`代币余额不足: ${have}/${amountInSmallestUnits}`)] *)
Definition insufficient_token (have amountInSmallestUnits : Number) : JsError :=
  Error [Lit "代币余额不足: "; Val have; Lit "/";
         Val amountInSmallestUnits].

Definition transferSOL (sdk : Sdk) (config : Config)
    (senderPrivateKeyHex recipientPublicKeyStr : string) (amountSOL : Number)
  : M Signature :=
  try_catch
    (connection <- lift (new_Connection sdk (SolanaNetwork config)) ;;
     let senderPrivateKeyBuffer := Buffer.from_hex senderPrivateKeyHex in
     senderKeypair <- lift (Keypair_fromSecretKey sdk senderPrivateKeyBuffer) ;;
     balance <- lift (getBalance connection (publicKey senderKeypair)) ;;
     let balanceInSOL := div balance (of_Z 1000000000) in
     if lt balanceInSOL amountSOL
     then throw (insufficient_SOL balanceInSOL amountSOL)
     else
       recipientPublicKey <- lift (new_PublicKey sdk recipientPublicKeyStr) ;;
       let lamports := mul amountSOL (of_Z 1000000000) in
       instruction <-
         lift (SystemProgram_transfer sdk (publicKey senderKeypair) recipientPublicKey
                 lamports) ;;
       new_Transaction ;;;
       add instruction ;;;
       blockhash <- lift (getLatestBlockhash connection) ;;
       set_recentBlockhash blockhash ;;;
       set_feePayer (publicKey senderKeypair) ;;;
       signature <- sendAndConfirmTransaction connection [senderKeypair] None ;;
       ret signature)
    (fun error => throw error).

Definition transferToken (sdk : Sdk) (config : Config)
    (senderPrivateKeyHex recipientPublicKeyStr mintAddressStr : string)
    (amount : Number) : M Signature :=
  try_catch
    (connection <- lift (new_Connection sdk (SolanaNetwork config)) ;;
     senderKeypair <-
       lift (Keypair_fromSecretKey sdk (Buffer.from_hex senderPrivateKeyHex)) ;;
     recipientPubkey <- lift (new_PublicKey sdk recipientPublicKeyStr) ;;
     mintPubkey <- lift (new_PublicKey sdk mintAddressStr) ;;
     sourceAta <-
       lift (getAssociatedTokenAddress sdk mintPubkey (publicKey senderKeypair)) ;;
     destAta <- lift (getAssociatedTokenAddress sdk mintPubkey recipientPubkey) ;;
     new_Transaction ;;;
     sourceInfo <- lift (getAccountInfo connection sourceAta) ;;
     match sourceInfo with
     | None =>
         add (CreateAssociatedTokenAccount (publicKey senderKeypair) sourceAta
                (publicKey senderKeypair) mintPubkey
                TOKEN_PROGRAM_ID ASSOCIATED_TOKEN_PROGRAM_ID)
     | Some _ => ret tt
     end ;;;
     destInfo <- lift (getAccountInfo connection destAta) ;;
     match destInfo with
     | None =>
         add (CreateAssociatedTokenAccount (publicKey senderKeypair) destAta
                recipientPubkey mintPubkey
                TOKEN_PROGRAM_ID ASSOCIATED_TOKEN_PROGRAM_ID)
     | Some _ => ret tt
     end ;;;
     mintInfo <- lift (getMint connection mintPubkey) ;;
     let amountInSmallestUnits :=
       Math_round (mul amount (Math_pow10 (mint_decimals mintInfo))) in
     let have :=
       match getTokenAccountBalance connection sourceAta with
       | Ok value_amount => parseInt value_amount 10
       | Throw _ => of_Z 0
       end in
     if lt have amountInSmallestUnits
     then throw (insufficient_token have amountInSmallestUnits)
     else
       transferChecked <-
         lift (createTransferCheckedInstruction sdk sourceAta mintPubkey destAta
                 (publicKey senderKeypair) amountInSmallestUnits
                 (mint_decimals mintInfo) [] TOKEN_PROGRAM_ID) ;;
       add transferChecked ;;;
       blockhash <- lift (getLatestBlockhash connection) ;;
       set_recentBlockhash blockhash ;;;
       set_feePayer (publicKey senderKeypair) ;;;
       signature <- sendAndConfirmTransaction connection [senderKeypair] None ;;
       ret signature)
    (fun error => throw error).

End WalletFun.

(* ================================================================== *)
(** ** The [main] functions of the wallet scripts

    A script's [main] awaits several operations in turn, and each operation
    opens its own connection: the node may answer one of them differently
    from the next.  [main] therefore takes the SDK as each awaited operation
    finds it.  What [main] prints is not modelled, so it returns nothing. *)

Module WalletFunScript.

Import JsNumber JsString Js Solana Eff.
Local Open Scope js_scope.
Local Open Scope string_scope.

(** [main] of [walletFun.js]: the sender's balance, the transfer of 0.005
    SOL, then both balances; a failed transfer is reported by the inner
    [catch], any other failure by the outer one. *)
Definition main (at_start at_transfer after_sender after_recipient : Sdk)
    (config : Config) : M unit :=
  try_catch
    (let senderPrivateKey :=
       "1762a599b597f0c6b2cc0cac9fda0f8c6424abbd3fd0490790b0bbdc56f4cb8f1b178ca6215382b28196b363cc1081c9476c1215412fa451dcd14f30a6ebc711" in
     let recipientPublicKey := "xvHxkkPZ7sX2s2XKkCNWHpcgcBjFuThKrqxppTU1DA7" in
     let amountToSend := decimal 5 3 in
     let senderPublicKey := "2pkqS8fDtR3vizXJcbVnTfeck2JvYZy3r6wzDH5T9NMv" in
     senderBalance <- WalletFun.getWalletBalance at_start config senderPublicKey ;;
     try_catch
       (signature <-
          WalletFun.transferSOL at_transfer config senderPrivateKey recipientPublicKey
            amountToSend ;;
        newSenderBalance <-
          WalletFun.getWalletBalance after_sender config senderPublicKey ;;
        recipientBalance <-
          WalletFun.getWalletBalance after_recipient config recipientPublicKey ;;
        ret tt)
       (fun error => ret tt))
    (fun error => ret tt).

End WalletFunScript.

Module TokenTransferScript.

Import JsNumber JsString Js Solana Eff.
Local Open Scope js_scope.
Local Open Scope string_scope.

(** [main] of the extended wallet script: one token transfer of 0.005
    token, every failure reported by the [catch]. *)
Definition main (sdk : Sdk) (config : Config) : M unit :=
  try_catch
    (let senderPrivateKey :=
       "1762a599b597f0c6b2cc0cac9fda0f8c6424abbd3fd0490790b0bbdc56f4cb8f1b178ca6215382b28196b363cc1081c9476c1215412fa451dcd14f30a6ebc711" in
     let recipientPublicKey := "xvHxkkPZ7sX2s2XKkCNWHpcgcBjFuThKrqxppTU1DA7" in
     let mintAddress := "6fWKREANuHe3Mo8zCFcxbT4UE8DMZh16iVcGXuaiiGoK" in
     let amountToSend := decimal 5 3 in
     signature <-
       WalletFun.transferToken sdk config senderPrivateKey recipientPublicKey
         mintAddress amountToSend ;;
     ret tt)
    (fun error => ret tt).

End TokenTransferScript.

(* ================================================================== *)
(** ** A test network

    The key pairs, the recipient and the mint address are the ones the
    scripts' own [main] functions and comments use.  The node is described
    by the payer's balance in lamports, the decimals of the mint and the
    token accounts that exist, each with its amount. *)

Module Fixture.

Import JsNumber JsString Js Solana Eff.
Local Open Scope string_scope.

Definition sender_key_hex : string :=
  "1762a599b597f0c6b2cc0cac9fda0f8c6424abbd3fd0490790b0bbdc56f4cb8f1b178ca6215382b28196b363cc1081c9476c1215412fa451dcd14f30a6ebc711".
Definition sender_address : string := "2pkqS8fDtR3vizXJcbVnTfeck2JvYZy3r6wzDH5T9NMv".

Definition recipient_key_hex : string :=
  "c1a30a11188f7dc9a725390faf9fa94f556f1fb93ca9535a4fbd393ba87c63de0e5333d3a9c93065edf27c4da6854524a6b24fee4e714bca0a2666c99db810f0".
Definition recipient_address : string := "xvHxkkPZ7sX2s2XKkCNWHpcgcBjFuThKrqxppTU1DA7".

Definition mint_address : string := "6fWKREANuHe3Mo8zCFcxbT4UE8DMZh16iVcGXuaiiGoK".

Definition sender : Keypair :=
  mkKeypair (Pubkey sender_address) (Buffer.from_hex sender_key_hex).
Definition recipient : Keypair :=
  mkKeypair (Pubkey recipient_address) (Buffer.from_hex recipient_key_hex).

Definition bytes_eqb (a b : list Z) : bool :=
  (List.length a =? List.length b)%nat && forallb (fun p => Z.eqb (fst p) (snd p)) (combine a b).

Definition fromSecretKey (bytes : list Z) : Result Keypair :=
  if negb (List.length bytes =? 64)%nat then Throw (Error [Lit "bad secret key size"])
  else if bytes_eqb bytes (secretKey sender) then Ok sender
  else if bytes_eqb bytes (secretKey recipient) then Ok recipient
  else Throw (Error [Lit "provided secretKey is invalid"]).

Definition parse_address (s : string) : Result PublicKey :=
  if existsb (String.eqb s) [sender_address; recipient_address; mint_address]
  then Ok (Pubkey s)
  else Throw (Error [Lit "Invalid public key input"]).

(** Derived addresses are kept symbolic. *)
Definition associated_address (mint owner : PublicKey) : Result PublicKey :=
  Ok (Pubkey ("ata(" ++ PublicKey_toString owner ++ "," ++ PublicKey_toString mint ++ ")")).

Definition program_address (seeds : list Seed) (program : PublicKey)
  : Result (PublicKey * Z) :=
  Ok (Pubkey ("pda(" ++ PublicKey_toString program ++ ")"), 255).

Fixpoint lookup (a : PublicKey) (accounts : list (PublicKey * string)) : option string :=
  match accounts with
  | [] => None
  | (k, v) :: r => if PublicKey_eqb a k then Some v else lookup a r
  end.

Definition node (lamports : Z) (decimals : N) (token_accounts : list (PublicKey * string))
  : Connection :=
  {| getBalance := fun _ => Ok (of_Z lamports);
     getAccountInfo := fun a =>
       match lookup a token_accounts with
       | Some _ => Ok (Some {| ai_lamports := of_Z 2039280; ai_owner := TOKEN_PROGRAM_ID |})
       | None => Ok None
       end;
     getTokenAccountBalance := fun a =>
       match lookup a token_accounts with
       | Some amount => Ok amount
       | None => Throw (Error [Lit "failed to get token account balance: could not find account"])
       end;
     getLatestBlockhash := Ok "EkSnNWid2cvwEVnVx9aBqawnmiCNiDgp3gUdkDPTKN1N";
     getMint := fun _ => Ok {| mint_decimals := decimals; mint_supply := 1000000000000 |};
     getMinimumBalanceForRentExemptMint := Ok (of_Z 1461600);
     confirm := fun _ _ _ => Ok "5VERv8NMvzbJMEkV8xnrLkEaWRtSz9CosKDYjCJjBRnbJLgp8uirBgmQpjKhoR4tjF3ZpRzrFmBV6UjKdiSZkQUW" |}.

Definition sdk (connection : Connection) : Sdk :=
  {| Keypair_fromSecretKey := fromSecretKey;
     Keypair_generate := recipient;
     new_PublicKey := parse_address;
     getAssociatedTokenAddress := associated_address;
     findProgramAddressSync := program_address;
     new_Connection := fun _ => Ok connection;
     encoding_error := fun builder value =>
       mkError "RangeError" [Lit builder; Lit ": cannot encode "; Val value] |}.

Definition config (decimals : N) (initialSupply : Number) : Config :=
  {| SolanaNetwork := "https://api.devnet.solana.com";
     TOKEN_METADATA :=
       {| tm_name := "Test Token"; tm_symbol := "TEST";
          tm_uri := "https://example.com/metadata.json";
          tm_sellerFeeBasisPoints := 0 |};
     TOKEN_CONFIG := {| tc_decimals := decimals; tc_initialSupply := initialSupply |} |}.

(** The sender's key written with upper-case digits. *)
Definition sender_key_hex_upper : string :=
  "1762A599B597F0C6B2CC0CAC9FDA0F8C6424ABBD3FD0490790B0BBDC56F4CB8F1B178CA6215382B28196B363CC1081C9476C1215412FA451DCD14F30A6EBC711".

Definition sender_ata : PublicKey :=
  Pubkey ("ata(" ++ sender_address ++ "," ++ mint_address ++ ")").
Definition recipient_ata : PublicKey :=
  Pubkey ("ata(" ++ recipient_address ++ "," ++ mint_address ++ ")").

End Fixture.

(* ================================================================== *)
(** * Properties *)

Import JsNumber JsString Js Solana Eff.

(** ** Vocabulary of the statements *)

Definition is_ata_creation (i : Instruction) : bool :=
  match i with
  | CreateAssociatedTokenAccount _ _ _ _ _ _ => true
  | _ => false
  end.

(** The number of instructions of a transaction that create the given
    associated token account. *)
Definition creations_for (account : PublicKey) (tx : Transaction) : nat :=
  List.length
    (filter (fun i =>
               match i with
               | CreateAssociatedTokenAccount _ associatedToken _ _ _ _ =>
                   PublicKey_eqb associatedToken account
               | _ => false
               end)
            (instructions tx)).

(** The node of [connection], except that every token-balance lookup gets
    the given answer. *)
Definition answering_balance (connection : Connection) (answer : Result string)
  : Connection :=
  {| getBalance := getBalance connection;
     getAccountInfo := getAccountInfo connection;
     getTokenAccountBalance := fun _ => answer;
     getLatestBlockhash := getLatestBlockhash connection;
     getMint := getMint connection;
     getMinimumBalanceForRentExemptMint := getMinimumBalanceForRentExemptMint connection;
     confirm := confirm connection |}.

(** The SDK [sdk], connected to the given node. *)
Definition connected_to (sdk : Sdk) (connection : Connection) : Sdk :=
  {| Keypair_fromSecretKey := Keypair_fromSecretKey sdk;
     Keypair_generate := Keypair_generate sdk;
     new_PublicKey := new_PublicKey sdk;
     getAssociatedTokenAddress := getAssociatedTokenAddress sdk;
     findProgramAddressSync := findProgramAddressSync sdk;
     new_Connection := fun _ => Ok connection;
     encoding_error := encoding_error sdk |}.

(** All the characters, for properties checked character by character. *)
Definition all_ascii : list ascii := map ascii_of_nat (seq 0 256).

(** What the two key loaders and the encoder do on one pair of
    hexadecimal digits: no digit is a line terminator, [Buffer.from] and
    the chunk-wise [parseInt] give the same byte, and the byte prints as
    the two digits in lower case. *)
Definition hex_pair_law (c1 c2 : ascii) : bool :=
  implb (is_hex_digit c1 && is_hex_digit c2)
    (let chunk := String c1 (String c2 EmptyString) in
     let byte := ToUint8 (parseInt chunk 16) in
     negb (is_line_terminator c1) && negb (is_line_terminator c2)
     && match Buffer.from_hex chunk with
        | [b] => b =? byte
        | _ => false
        end
     && String.eqb (Buffer.toString_hex [byte])
          (String (lower_char c1) (String (lower_char c2) EmptyString))).

(** Letter case does not change the value of a digit. *)
Definition hex_char_law (c : ascii) : bool :=
  match digit_value (lower_char c), digit_value c with
  | Some a, Some b => a =? b
  | None, None => true
  | _, _ => false
  end.

(** A non-negative integer that binary64 holds exactly: what it has beyond
    53 bits are zeros. *)
Definition representable (n : Z) : bool :=
  n mod 2 ^ Z.max 0 (Z.log2 n - 52) =? 0.

(** A byte value, as a [Uint8Array] holds them. *)
Definition is_byte (b : Z) : bool := (0 <=? b) && (b <? 256).

(** What encoding and the conversions do on one byte: it prints as two
    hexadecimal digits that [Buffer.from] reads back, and storing it into
    a [Uint8Array] as a Number keeps it. *)
Definition byte_law (n : nat) : bool :=
  let b := Z.of_nat n in
  let hi := Buffer.hex_char (b / 16) in
  let lo := Buffer.hex_char (b mod 16) in
  is_hex_digit hi && is_hex_digit lo
  && match Buffer.from_hex (String hi (String lo EmptyString)) with
     | [b'] => b' =? b
     | _ => false
     end
  && (ToUint8 (of_Z b) =? b).

(** What the loader of [createTokenWithMetadata] makes of a last, single
    hexadecimal digit. *)
Definition hex_digit_law (c : ascii) : bool :=
  implb (is_hex_digit c)
    (negb (is_line_terminator c)
     && match digit_value c with
        | Some d => ToUint8 (parseInt (String c EmptyString) 16) =? d
        | None => false
        end).

(** A value of the binary64 format: the mantissa of a finite one has at
    most 53 bits and the exponent the format gives it. *)
Definition is_Number (x : Number) : bool := valid_binary prec emax x.

(** The sign of a Number, [NaN] having none. *)
Definition has_sign (s : bool) (x : Number) : Prop :=
  match x with
  | S754_zero s' | S754_infinity s' | S754_finite s' _ _ => s' = s
  | S754_nan => True
  end.

(** A Number that is negative. *)
Definition is_negative (x : Number) : Prop :=
  match x with
  | S754_infinity true | S754_finite true _ _ => True
  | _ => False
  end.

(** The instructions that create the associated accounts the node reports
    absent, the sender's first. *)
Definition expected_creations (payer sourceAta destAta recipient mint : PublicKey)
    (sourceInfo destInfo : option AccountInfo) : list Instruction :=
  (match sourceInfo with
   | None => [CreateAssociatedTokenAccount payer sourceAta payer mint
                TOKEN_PROGRAM_ID ASSOCIATED_TOKEN_PROGRAM_ID]
   | Some _ => []
   end)
  ++
  (match destInfo with
   | None => [CreateAssociatedTokenAccount payer destAta recipient mint
                TOKEN_PROGRAM_ID ASSOCIATED_TOKEN_PROGRAM_ID]
   | Some _ => []
   end).

(** The source balance the pre-flight check of [transferToken] uses. *)
Definition balance_seen (connection : Connection) (sourceAta : PublicKey) : Number :=
  match getTokenAccountBalance connection sourceAta with
  | Ok value_amount => parseInt value_amount 10
  | Throw _ => of_Z 0
  end.

(** [Math.round(amount * Math.pow(10, decimals))] *)
Definition smallest_units (amount : Number) (decimals : N) : Number :=
  Math_round (mul amount (Math_pow10 decimals)).

(** What [transferSOL] builds once its pre-flight check is passed. *)
Definition transfer_of (senderKeypair : Keypair) (recipient : PublicKey)
    (lamports : Number) (blockhash : Blockhash) : Transaction :=
  {| instructions := [SystemTransfer (publicKey senderKeypair) recipient lamports];
     recentBlockhash := Some blockhash;
     feePayer := Some (publicKey senderKeypair) |}.

(** What [transferToken] builds once its pre-flight check is passed. *)
Definition token_transfer_of (senderKeypair : Keypair)
    (recipient mint sourceAta destAta : PublicKey)
    (sourceInfo destInfo : option AccountInfo)
    (units : Number) (decimals : N) (blockhash : Blockhash) : Transaction :=
  {| instructions :=
       expected_creations (publicKey senderKeypair) sourceAta destAta recipient mint
         sourceInfo destInfo
       ++ [TransferChecked sourceAta mint destAta (publicKey senderKeypair)
             units decimals [] TOKEN_PROGRAM_ID];
     recentBlockhash := Some blockhash;
     feePayer := Some (publicKey senderKeypair) |}.

(** ** Proof steps *)

Ltac unfold_effects :=
  unfold try_catch, bind, lift, ret, throw, new_Transaction, add,
    set_recentBlockhash, set_feePayer, sendAndConfirmTransaction,
    SystemProgram_transfer, createInitializeMintInstruction,
    createMintToInstruction, createTransferCheckedInstruction;
  cbn [fst snd transaction submitted instructions recentBlockhash feePayer].

(** Case analysis on the next answer, option or test an operation inspects. *)
Ltac next_case :=
  match goal with
  | |- context [if ?b then _ else _] => destruct b eqn:?
  | |- context [match ?r with Ok _ => _ | Throw _ => _ end] => destruct r eqn:?
  | |- context [match ?r with Some _ => _ | None => _ end] => destruct r eqn:?
  end;
  cbv beta iota;
  cbn [fst snd transaction submitted instructions recentBlockhash feePayer].

(** Continue with a known answer. *)
Ltac answered H := rewrite H; cbv beta iota; cbn [fst snd].

(** ** Running the operations *)

(** The metadata builder is not among the bindings of [tokenFun.js]. *)
Lemma metadata_builder_unbound :
  forall (A : Type) (binding : A),
    resolve TokenFun.scope "createCreateMetadataAccountV3Instruction" binding
    = Throw (ReferenceError "createCreateMetadataAccountV3Instruction").
Proof. intros. reflexivity. Qed.

Lemma not_extended {A : Type} (l : list A) (x : A) : l = l ++ [x] -> False.
Proof.
  intro H. apply (f_equal (@List.length A)) in H.
  rewrite length_app in H. simpl in H. lia.
Qed.

(** ** Binary64 arithmetic on integers *)

Lemma digits2_pos_size (p : positive) : digits2_pos p = Pos.size p.
Proof. induction p; simpl; congruence. Qed.

Lemma Zdigits2_log2 (z : Z) : 0 < z -> Zdigits2 z = Z.log2 z + 1.
Proof.
  destruct z as [| p | p]; try lia. intros _.
  unfold Zdigits2. rewrite digits2_pos_size.
  destruct p; simpl; lia.
Qed.

Lemma iter_pos_nat {A : Type} (f : A -> A) (n : positive) (x : A) :
  iter_pos f n x = Nat.iter (Pos.to_nat n) f x.
Proof.
  transitivity (Pos.iter f x n); [| apply Pos2Nat.inj_iter].
  revert x. induction n; intro x; simpl.
  - rewrite !IHn. rewrite <- !Pos.iter_swap. reflexivity.
  - rewrite !IHn. reflexivity.
  - reflexivity.
Qed.

Lemma shr_1_exact (k : nat) : forall m : Z, 0 < m ->
  Nat.iter k shr_1 {| shr_m := m * 2 ^ Z.of_nat k; shr_r := false; shr_s := false |}
  = {| shr_m := m; shr_r := false; shr_s := false |}.
Proof.
  induction k; intros m Hm.
  - simpl. f_equal. lia.
  - rewrite Nat.iter_succ.
    replace (m * 2 ^ Z.of_nat (S k)) with ((2 * m) * 2 ^ Z.of_nat k)
      by (rewrite Nat2Z.inj_succ, Z.pow_succ_r; lia).
    rewrite IHk by lia.
    destruct m as [| p | p]; try lia. reflexivity.
Qed.

Lemma shr_exact (m e t : Z) : 0 < m -> 0 <= t ->
  shr {| shr_m := m * 2 ^ t; shr_r := false; shr_s := false |} (e - t) t
  = ({| shr_m := m; shr_r := false; shr_s := false |}, e).
Proof.
  intros Hm Ht. unfold shr.
  destruct t as [| p | p]; try lia.
  - f_equal; [f_equal; lia | lia].
  - rewrite iter_pos_nat.
    replace (Z.pos p) with (Z.of_nat (Pos.to_nat p)) at 1 by apply positive_nat_Z.
    rewrite shr_1_exact by lia. f_equal. lia.
Qed.

(** Rounding a value that a 53-bit mantissa represents changes nothing. *)
Lemma round_exact (s : bool) (m t e : Z) :
  2 ^ 52 <= m < 2 ^ 53 -> 0 <= t -> -1074 <= e <= 971 ->
  binary_round_aux prec emax s (m * 2 ^ t) (e - t) loc_Exact
  = S754_finite s (Z.to_pos m) e.
Proof.
  intros Hm Ht He.
  assert (Hpos : 0 < m) by lia.
  assert (Hlog : Z.log2 m = 52).
  { apply Z.log2_unique; lia. }
  assert (Hd : Zdigits2 (m * 2 ^ t) = 53 + t).
  { rewrite Zdigits2_log2 by (apply Z.mul_pos_pos; [lia | apply Z.pow_pos_nonneg; lia]).
    rewrite Z.log2_mul_pow2 by lia. lia. }
  assert (Hd0 : Zdigits2 m = 53) by (rewrite Zdigits2_log2 by lia; lia).
  unfold binary_round_aux, shr_fexp.
  rewrite Hd. unfold fexp, emin, prec, emax.
  replace (Z.max (53 + t + (e - t) - 53) (3 - 1024 - 53) - (e - t)) with t by lia.
  cbn [shr_record_of_loc].
  rewrite shr_exact by lia.
  cbn [shr_m loc_of_shr_record round_nearest_even].
  rewrite Hd0.
  replace (Z.max (53 + e - 53) (3 - 1024 - 53) - e) with 0 by lia.
  cbn [shr shr_m].
  destruct m as [| p | p]; try lia.
  replace (e <=? 1024 - 53) with true by (symmetry; apply Z.leb_le; lia).
  reflexivity.
Qed.

Lemma iter_xO_pow2 (p d : positive) :
  Z.pos (Pos.iter xO p d) = Z.pos p * 2 ^ Z.pos d.
Proof.
  induction d using Pos.peano_ind.
  - simpl. lia.
  - rewrite Pos.iter_succ, Pos2Z.inj_xO, IHd, Pos2Z.inj_succ, Z.pow_succ_r by lia. lia.
Qed.

Lemma shl_align_spec (p : positive) (e' : Z) :
  e' <= 0 ->
  Z.pos (fst (shl_align p 0 e')) = Z.pos p * 2 ^ (- e') /\ snd (shl_align p 0 e') = e'.
Proof.
  intro He. unfold shl_align.
  destruct (e' - 0) as [| d | d] eqn:Hd; try lia; cbn [fst snd].
  - replace e' with 0 by lia. simpl. lia.
  - rewrite iter_xO_pow2. replace (- e') with (Z.pos d) by lia. lia.
Qed.

(** The representation of a positive integer below [2^53]. *)
Lemma of_Z_canonical (n : Z) :
  0 < n < 2 ^ 53 ->
  of_Z n = S754_finite false (Z.to_pos (n * 2 ^ (52 - Z.log2 n))) (Z.log2 n - 52).
Proof.
  intros Hn.
  assert (HL : 0 <= Z.log2 n < 53).
  { split; [apply Z.log2_nonneg | apply Z.log2_lt_pow2; lia]. }
  pose proof (Z.log2_spec n ltac:(lia)) as Hspec.
  destruct n as [| p | p]; try lia.
  unfold of_Z, binary_normalize, binary_round.
  change (Z.pos (digits2_pos p)) with (Zdigits2 (Z.pos p)).
  rewrite Zdigits2_log2 by lia.
  set (L := Z.log2 (Z.pos p)) in *.
  unfold fexp at 1. unfold emin, prec, emax.
  replace (Z.max (L + 1 + 0 - 53) (3 - 1024 - 53)) with (L - 52) by lia.
  destruct (shl_align_spec p (L - 52) ltac:(lia)) as [Hm He].
  destruct (shl_align p 0 (L - 52)) as [mz ez]. cbn [fst snd] in Hm, He. subst ez.
  replace (- (L - 52)) with (52 - L) in Hm by lia.
  pose proof (round_exact false (Z.pos mz) 0 (L - 52)) as Hr.
  rewrite Z.pow_0_r, Z.mul_1_r, Z.sub_0_r in Hr.
  unfold prec, emax in Hr. rewrite Hr; [rewrite <- Hm; reflexivity | | lia | lia].
  rewrite Hm.
  replace (2 ^ 52) with (2 ^ L * 2 ^ (52 - L)) by (rewrite <- Z.pow_add_r by lia; f_equal; lia).
  replace (2 ^ 53) with (2 ^ Z.succ L * 2 ^ (52 - L)) by (rewrite <- Z.pow_add_r by lia; f_equal; lia).
  assert (0 < 2 ^ (52 - L)) by (apply Z.pow_pos_nonneg; lia).
  split; [apply Z.mul_le_mono_nonneg_r | apply Z.mul_lt_mono_pos_r]; lia.
Qed.

(** The binary64 product of two positive integers whose exact product is
    below [2^53] is that product. *)
Lemma mul_exact (a b : Z) :
  0 < a -> 0 < b -> a * b < 2 ^ 53 ->
  mul (of_Z a) (of_Z b) = of_Z (a * b).
Proof.
  intros Ha Hb Hab.
  assert (Ha53 : a < 2 ^ 53) by nia.
  assert (Hb53 : b < 2 ^ 53) by nia.
  assert (Hpos : 0 < a * b) by nia.
  rewrite (of_Z_canonical a), (of_Z_canonical b), (of_Z_canonical (a * b)) by lia.
  pose proof (Z.log2_spec a Ha) as Hsa.
  pose proof (Z.log2_spec b Hb) as Hsb.
  pose proof (Z.log2_spec (a * b) Hpos) as Hsab.
  pose proof (Z.log2_mul_below a b Ha Hb) as Hbelow.
  assert (HLab : Z.log2 (a * b) < 53) by (apply Z.log2_lt_pow2; lia).
  pose proof (Z.log2_nonneg a) as Hna.
  pose proof (Z.log2_nonneg b) as Hnb.
  pose proof (Z.log2_nonneg (a * b)) as Hnab.
  set (La := Z.log2 a) in *. set (Lb := Z.log2 b) in *. set (Lab := Z.log2 (a * b)) in *.
  unfold mul, SFmul. cbn [xorb].
  assert (Pa : 0 < a * 2 ^ (52 - La)) by (apply Z.mul_pos_pos; [lia | apply Z.pow_pos_nonneg; lia]).
  assert (Pb : 0 < b * 2 ^ (52 - Lb)) by (apply Z.mul_pos_pos; [lia | apply Z.pow_pos_nonneg; lia]).
  assert (Pab : 0 < 2 ^ (52 - Lab)) by (apply Z.pow_pos_nonneg; lia).
  rewrite Pos2Z.inj_mul, !Z2Pos.id by lia.
  set (t := 52 + Lab - La - Lb).
  replace (a * 2 ^ (52 - La) * (b * 2 ^ (52 - Lb)))
    with ((a * b * 2 ^ (52 - Lab)) * 2 ^ t).
  2:{ unfold t.
      replace (a * b * 2 ^ (52 - Lab) * 2 ^ (52 + Lab - La - Lb))
        with (a * b * (2 ^ (52 - Lab) * 2 ^ (52 + Lab - La - Lb))) by ring.
      rewrite <- Z.pow_add_r by lia.
      replace (52 - Lab + (52 + Lab - La - Lb)) with ((52 - La) + (52 - Lb)) by lia.
      rewrite Z.pow_add_r by lia. ring. }
  replace (La - 52 + (Lb - 52)) with ((Lab - 52) - t) by (unfold t; lia).
  apply round_exact; [| unfold t; lia | lia].
  replace (2 ^ 52) with (2 ^ Lab * 2 ^ (52 - Lab)) by (rewrite <- Z.pow_add_r by lia; f_equal; lia).
  replace (2 ^ 53) with (2 ^ Z.succ Lab * 2 ^ (52 - Lab)) by (rewrite <- Z.pow_add_r by lia; f_equal; lia).
  split; [apply Z.mul_le_mono_nonneg_r | apply Z.mul_lt_mono_pos_r]; lia.
Qed.

(** Integers below [2^53] are Numbers. *)
Lemma to_Z_of_Z (n : Z) : 0 <= n < 2 ^ 53 -> to_Z (of_Z n) = Some n.
Proof.
  intros Hn.
  destruct (Z.eq_dec n 0) as [-> | Hnz]; [reflexivity |].
  rewrite of_Z_canonical by lia.
  assert (HL : 0 <= Z.log2 n < 53).
  { split; [apply Z.log2_nonneg | apply Z.log2_lt_pow2; lia]. }
  set (L := Z.log2 n) in *.
  assert (P : 0 < 2 ^ (52 - L)) by (apply Z.pow_pos_nonneg; lia).
  unfold to_Z.
  rewrite Z2Pos.id by (apply Z.mul_pos_pos; lia).
  destruct (0 <=? L - 52) eqn:Hle.
  - apply Z.leb_le in Hle. assert (HL52 : L = 52) by lia. rewrite HL52.
    change (52 - 52) with 0. rewrite Z.pow_0_r. f_equal. lia.
  - replace (- (L - 52)) with (52 - L) by lia.
    rewrite Z.mod_mul by lia. rewrite Z.eqb_refl.
    rewrite Z.div_mul by lia. f_equal. lia.
Qed.

(** The product of two integers is exact when it stays below [2^53]. *)
Lemma mul_of_Z_exact (a b : Z) :
  0 <= a -> 0 < b < 2 ^ 53 -> a * b < 2 ^ 53 ->
  mul (of_Z a) (of_Z b) = of_Z (a * b).
Proof.
  intros Ha Hb Hab.
  destruct (Z.eq_dec a 0) as [-> | Hnz].
  - rewrite (of_Z_canonical b) by lia. reflexivity.
  - apply mul_exact; lia.
Qed.

(** The binary64 form of a representable positive integer. *)
Lemma of_Z_representable (n : Z) :
  0 < n -> representable n = true -> Z.log2 n <= 1023 ->
  exists M,
    of_Z n = S754_finite false (Z.to_pos M) (Z.log2 n - 52)
    /\ 2 ^ 52 <= M < 2 ^ 53
    /\ M * 2 ^ Z.log2 n = n * 2 ^ 52.
Proof.
  intros Hn Hrep Hbig.
  pose proof (Z.log2_spec n Hn) as Hspec.
  pose proof (Z.log2_nonneg n) as HL0.
  destruct (Z_le_gt_dec (Z.log2 n) 52) as [Hsmall | Hlarge].
  - exists (n * 2 ^ (52 - Z.log2 n)).
    assert (Hn53 : n < 2 ^ 53).
    { apply Z.lt_le_trans with (2 ^ Z.succ (Z.log2 n)); [lia |].
      apply Z.pow_le_mono_r; lia. }
    split; [apply of_Z_canonical; lia |].
    set (L := Z.log2 n) in *.
    assert (P : 0 < 2 ^ (52 - L)) by (apply Z.pow_pos_nonneg; lia).
    split.
    + replace (2 ^ 52) with (2 ^ L * 2 ^ (52 - L))
        by (rewrite <- Z.pow_add_r by lia; f_equal; lia).
      replace (2 ^ 53) with (2 ^ Z.succ L * 2 ^ (52 - L))
        by (rewrite <- Z.pow_add_r by lia; f_equal; lia).
      split; [apply Z.mul_le_mono_nonneg_r | apply Z.mul_lt_mono_pos_r]; lia.
    + rewrite <- Z.mul_assoc, <- Z.pow_add_r by lia. do 2 f_equal. lia.
  - unfold representable in Hrep. apply Z.eqb_eq in Hrep.
    set (L := Z.log2 n) in *.
    replace (Z.max 0 (L - 52)) with (L - 52) in Hrep by lia.
    assert (P : 0 < 2 ^ (L - 52)) by (apply Z.pow_pos_nonneg; lia).
    pose proof (Z.div_mod n (2 ^ (L - 52)) ltac:(lia)) as Hdm.
    rewrite Hrep, Z.add_0_r in Hdm.
    set (M := n / 2 ^ (L - 52)) in *.
    assert (HM : 2 ^ 52 <= M < 2 ^ 53).
    { assert (H1 : 2 ^ L = 2 ^ 52 * 2 ^ (L - 52))
        by (rewrite <- Z.pow_add_r by lia; f_equal; lia).
      assert (H2 : 2 ^ Z.succ L = 2 ^ 53 * 2 ^ (L - 52))
        by (rewrite <- Z.pow_add_r by lia; f_equal; lia).
      split; nia. }
    exists M. split; [| split; [exact HM |]].
    + destruct n as [| p | p]; try lia.
      unfold of_Z, binary_normalize, binary_round.
      change (Z.pos (digits2_pos p)) with (Zdigits2 (Z.pos p)).
      rewrite Zdigits2_log2 by lia. fold L.
      unfold fexp at 1. unfold emin, prec, emax.
      replace (Z.max (L + 1 + 0 - 53) (3 - 1024 - 53)) with (L - 52) by lia.
      unfold shl_align.
      destruct (L - 52 - 0) as [| d | d] eqn:Hd; try lia.
      pose proof (round_exact false M (L - 52) (L - 52) HM ltac:(lia) ltac:(lia)) as Hr.
      rewrite Z.sub_diag in Hr. rewrite <- Hr. unfold prec, emax.
      f_equal. rewrite Hdm. ring.
    + rewrite Hdm.
      replace (2 ^ L) with (2 ^ (L - 52) * 2 ^ 52)
        by (rewrite <- Z.pow_add_r by lia; f_equal; lia).
      ring.
Qed.

(** The binary64 product of two representable integers whose product is
    representable is that product. *)
Lemma mul_representable (a b : Z) :
  0 < a -> 0 < b ->
  representable a = true -> representable b = true -> representable (a * b) = true ->
  Z.log2 (a * b) <= 1023 ->
  mul (of_Z a) (of_Z b) = of_Z (a * b).
Proof.
  intros Ha Hb Ra Rb Rab Hbig.
  assert (Hpos : 0 < a * b) by nia.
  pose proof (Z.log2_mul_below a b Ha Hb) as Hbelow.
  pose proof (Z.log2_nonneg a) as Hna.
  pose proof (Z.log2_nonneg b) as Hnb.
  destruct (of_Z_representable a Ha Ra ltac:(lia)) as (Ma & Ea & HMa & Va).
  destruct (of_Z_representable b Hb Rb ltac:(lia)) as (Mb & Eb & HMb & Vb).
  destruct (of_Z_representable (a * b) Hpos Rab Hbig) as (Mab & Eab & HMab & Vab).
  rewrite Ea, Eb, Eab.
  set (La := Z.log2 a) in *. set (Lb := Z.log2 b) in *. set (Lab := Z.log2 (a * b)) in *.
  unfold mul, SFmul. cbn [xorb].
  rewrite Pos2Z.inj_mul, !Z2Pos.id by lia.
  set (t := 52 + Lab - La - Lb).
  assert (Hprod : Ma * Mb = Mab * 2 ^ t).
  { apply Z.mul_reg_r with (2 ^ (La + Lb));
      [apply Z.pow_nonzero; lia |].
    transitivity (Ma * 2 ^ La * (Mb * 2 ^ Lb));
      [rewrite Z.pow_add_r by lia; ring |].
    rewrite Va, Vb.
    transitivity (a * b * 2 ^ 52 * 2 ^ 52); [ring |].
    rewrite <- Vab.
    transitivity (Mab * (2 ^ Lab * 2 ^ 52)); [ring |].
    transitivity (Mab * (2 ^ t * 2 ^ (La + Lb))); [| ring].
    f_equal. rewrite <- !Z.pow_add_r by (unfold t; lia). f_equal. unfold t. lia. }
  rewrite Hprod.
  replace (La - 52 + (Lb - 52)) with ((Lab - 52) - t) by (unfold t; lia).
  apply round_exact; [exact HMab | unfold t; lia | lia].
Qed.

(** Representable integers are Numbers. *)
Lemma to_Z_representable (n : Z) :
  0 <= n -> representable n = true -> Z.log2 n <= 1023 -> to_Z (of_Z n) = Some n.
Proof.
  intros Hn Hrep Hbig.
  destruct (Z.eq_dec n 0) as [-> | Hnz]; [reflexivity |].
  destruct (of_Z_representable n ltac:(lia) Hrep Hbig) as (M & E & HM & V).
  rewrite E. pose proof (Z.log2_nonneg n) as HL0.
  set (L := Z.log2 n) in *.
  unfold to_Z. rewrite Z2Pos.id by lia.
  destruct (0 <=? L - 52) eqn:Hle.
  - apply Z.leb_le in Hle. f_equal.
    apply Z.mul_reg_r with (2 ^ 52); [lia |].
    rewrite <- V.
    replace (2 ^ L) with (2 ^ (L - 52) * 2 ^ 52)
      by (rewrite <- Z.pow_add_r by lia; f_equal; lia).
    ring.
  - apply Z.leb_gt in Hle.
    replace (- (L - 52)) with (52 - L) by lia.
    assert (P : 0 < 2 ^ (52 - L)) by (apply Z.pow_pos_nonneg; lia).
    assert (HMn : M = n * 2 ^ (52 - L)).
    { apply Z.mul_reg_r with (2 ^ L); [apply Z.pow_nonzero; lia |].
      rewrite V, <- Z.mul_assoc, <- Z.pow_add_r by lia. do 2 f_equal. lia. }
    rewrite HMn, Z.mod_mul by lia. rewrite Z.eqb_refl.
    rewrite Z.div_mul by lia. f_equal. lia.
Qed.

(** The integers up to [2^53] are representable. *)
Lemma safe_integer_representable (n : Z) :
  0 <= n <= 2 ^ 53 -> representable n = true.
Proof.
  intros Hn. unfold representable. apply Z.eqb_eq.
  destruct (Z.eq_dec n (2 ^ 53)) as [-> | Hlt]; [reflexivity |].
  destruct (Z.eq_dec n 0) as [-> | Hnz]; [reflexivity |].
  assert (HL : Z.log2 n < 53) by (apply Z.log2_lt_pow2; lia).
  replace (Z.max 0 (Z.log2 n - 52)) with 0 by lia.
  apply Z.mod_1_r.
Qed.

(** So are the powers of ten up to [10^22]. *)
Lemma pow10_representable (d : Z) :
  0 <= d <= 22 -> representable (10 ^ d) = true /\ Z.log2 (10 ^ d) <= 1023.
Proof.
  intros Hd.
  assert (Hall : forallb (fun k => representable (10 ^ Z.of_nat k)
                                   && (Z.log2 (10 ^ Z.of_nat k) <=? 1023))
                         (seq 0 23) = true) by (vm_compute; reflexivity).
  rewrite forallb_forall in Hall.
  specialize (Hall (Z.to_nat d) ltac:(apply in_seq; lia)).
  rewrite Z2Nat.id in Hall by lia.
  apply andb_prop in Hall as [H1 H2]. apply Z.leb_le in H2. split; assumption.
Qed.

(** ** Hexadecimal keys *)

Lemma in_all_ascii (c : ascii) : In c all_ascii.
Proof.
  unfold all_ascii. rewrite <- (ascii_nat_embedding c).
  apply in_map. apply in_seq. pose proof (nat_ascii_bounded c). lia.
Qed.

Lemma for_all_ascii (P : ascii -> bool) :
  forallb P all_ascii = true -> forall c, P c = true.
Proof. intros H c. rewrite forallb_forall in H. apply H, in_all_ascii. Qed.

Lemma for_all_ascii_pairs (P : ascii -> ascii -> bool) :
  forallb (fun c1 => forallb (P c1) all_ascii) all_ascii = true ->
  forall c1 c2, P c1 c2 = true.
Proof.
  intros H c1 c2.
  apply (for_all_ascii (P c1)). apply (for_all_ascii (fun c => forallb (P c) all_ascii) H).
Qed.

(** What the two key loaders and the encoder do on one pair of hex digits. *)
Lemma hex_pair_law_holds : forall c1 c2, hex_pair_law c1 c2 = true.
Proof. apply for_all_ascii_pairs. vm_compute. reflexivity. Qed.

Lemma hex_char_law_holds : forall c, hex_char_law c = true.
Proof. apply for_all_ascii. vm_compute. reflexivity. Qed.

Lemma digit_value_lower (c : ascii) : digit_value (lower_char c) = digit_value c.
Proof.
  pose proof (hex_char_law_holds c) as H. unfold hex_char_law in H.
  destruct (digit_value (lower_char c)), (digit_value c); try discriminate; try reflexivity.
  apply Z.eqb_eq in H. congruence.
Qed.

(** Induction on strings, two characters at a time. *)
Lemma string_pairs_ind (P : string -> Prop) :
  P EmptyString ->
  (forall c, P (String c EmptyString)) ->
  (forall c1 c2 s, P s -> P (String c1 (String c2 s))) ->
  forall s, P s.
Proof.
  intros H0 H1 H2 s.
  assert (H : P s /\ forall c, P (String c s)).
  { induction s as [| c s [IH IHc]]; split; auto. }
  exact (proj1 H).
Qed.

Lemma from_hex_pair (c1 c2 : ascii) (r : string) :
  Buffer.from_hex (String c1 (String c2 r))
  = match Buffer.from_hex (String c1 (String c2 EmptyString)) with
    | [b] => b :: Buffer.from_hex r
    | _ => []
    end.
Proof.
  cbn [Buffer.from_hex].
  destruct (digit_value c1), (digit_value c2); try reflexivity.
  destruct ((z <? 16) && (z0 <? 16)); reflexivity.
Qed.

Lemma from_hex_lower : forall s, Buffer.from_hex (toLowerCase s) = Buffer.from_hex s.
Proof.
  induction s as [| c | c1 c2 s IH] using string_pairs_ind; try reflexivity.
  cbn [toLowerCase Buffer.from_hex].
  rewrite !digit_value_lower, IH. reflexivity.
Qed.

Lemma is_hex_string_lower : forall s, is_hex_string (toLowerCase s) = is_hex_string s.
Proof.
  unfold is_hex_string.
  induction s as [| c s IH]; [reflexivity |].
  cbn [toLowerCase all_chars]. rewrite IH. f_equal.
  unfold is_hex_digit. rewrite digit_value_lower. reflexivity.
Qed.

Lemma length_lower : forall s, String.length (toLowerCase s) = String.length s.
Proof. induction s; simpl; congruence. Qed.

(** On a string of hexadecimal digits of even length, the chunk-wise
    [parseInt] decoding gives the bytes of [Buffer.from(s, 'hex')], and
    encoding them gives the string back in lower case. *)
Lemma hex_decode_encode :
  forall s,
    Nat.even (String.length s) = true ->
    is_hex_string s = true ->
    map (fun byte => ToUint8 (parseInt byte 16)) (match_dot_1_2 s) = Buffer.from_hex s
    /\ Buffer.toString_hex (Buffer.from_hex s) = toLowerCase s.
Proof.
  induction s as [| c | c1 c2 s IH] using string_pairs_ind; intros Heven Hhex.
  - split; reflexivity.
  - discriminate Heven.
  - unfold is_hex_string in Hhex. cbn [all_chars] in Hhex.
    apply andb_prop in Hhex as [H1 Hhex]. apply andb_prop in Hhex as [H2 Hhex].
    destruct (IH Heven Hhex) as [IHd IHe].
    pose proof (hex_pair_law_holds c1 c2) as Hlaw. unfold hex_pair_law in Hlaw.
    rewrite H1, H2 in Hlaw. cbn [andb implb] in Hlaw.
    apply andb_prop in Hlaw as [Hlaw Henc]. apply andb_prop in Hlaw as [Hlaw Hdec].
    apply andb_prop in Hlaw as [Hl1 Hl2].
    apply negb_true_iff in Hl1, Hl2. apply String.eqb_eq in Henc.
    rewrite from_hex_pair.
    destruct (Buffer.from_hex (String c1 (String c2 EmptyString))) as [| b [| ? ?]];
      try discriminate Hdec.
    apply Z.eqb_eq in Hdec. subst b.
    split.
    + cbn [match_dot_1_2]. rewrite Hl1, Hl2. cbn [map]. rewrite IHd. reflexivity.
    + cbn [Buffer.toString_hex toLowerCase] in *. rewrite IHe.
      injection Henc as -> ->. reflexivity.
Qed.

(** On such a string, when it is not empty, the loader of
    [createTokenWithMetadata] obtains the bytes of [Buffer.from(s, 'hex')],
    the loader of the transfer functions. *)
Lemma secretKey_of_hex_string :
  forall s,
    s <> EmptyString ->
    Nat.even (String.length s) = true ->
    is_hex_string s = true ->
    TokenFun.secretKey_of (TokenFun.KeyString s) = Ok (Buffer.from_hex s).
Proof.
  intros s Hne Heven Hhex.
  destruct (hex_decode_encode s Heven Hhex) as [Hdec _].
  unfold TokenFun.secretKey_of.
  destruct (match_dot_1_2 s) eqn:Hchunks; [| rewrite <- Hdec; reflexivity].
  exfalso.
  destruct s as [| c1 [| c2 r]]; [congruence | discriminate Heven |].
  unfold is_hex_string in Hhex. cbn [all_chars] in Hhex.
  apply andb_prop in Hhex as [H1 Hhex]. apply andb_prop in Hhex as [H2 _].
  pose proof (hex_pair_law_holds c1 c2) as Hlaw. unfold hex_pair_law in Hlaw.
  rewrite H1, H2 in Hlaw. cbn [andb implb] in Hlaw.
  apply andb_prop in Hlaw as [Hlaw _]. apply andb_prop in Hlaw as [Hlaw _].
  apply andb_prop in Hlaw as [Hl1 Hl2]. apply negb_true_iff in Hl1, Hl2.
  cbn [match_dot_1_2] in Hchunks. rewrite Hl1, Hl2 in Hchunks. discriminate Hchunks.
Qed.

(** C8 (as amended): let [x] be a string of hexadecimal digits of even
    length whose bytes the signature scheme accepts.  The key loader yields
    the scheme's key pair for the decoded bytes, and yields the same key pair
    for every spelling of [x] in upper or lower case; encoding the decoded
    bytes gives [x] in lower case, hence [x] itself when [x] has no
    upper-case digit. *)
Theorem key_reencoding_is_lowercase :
  forall (sdk : Sdk) (x : string) (wallet : Keypair),
    is_hex_string x = true ->
    Nat.even (String.length x) = true ->
    TokenFun.load_wallet sdk (TokenFun.KeyString x) = Ok wallet ->
    exists bytes,
      TokenFun.secretKey_of (TokenFun.KeyString x) = Ok bytes
      /\ Keypair_fromSecretKey sdk bytes = Ok wallet
      /\ Buffer.toString_hex bytes = toLowerCase x
      /\ (toLowerCase x = x -> Buffer.toString_hex bytes = x)
      /\ (forall y, toLowerCase y = toLowerCase x ->
                    TokenFun.load_wallet sdk (TokenFun.KeyString y) = Ok wallet).
Proof.
  intros sdk x wallet Hhex Heven Hload.
  assert (Hne : x <> EmptyString).
  { intros ->. discriminate Hload. }
  pose proof (secretKey_of_hex_string x Hne Heven Hhex) as Hkey.
  destruct (hex_decode_encode x Heven Hhex) as [_ Henc].
  unfold TokenFun.load_wallet in Hload. rewrite Hkey in Hload.
  exists (Buffer.from_hex x). repeat split; try assumption.
  - intros Hlow. congruence.
  - intros y Hy.
    assert (Hyhex : is_hex_string y = true).
    { rewrite <- is_hex_string_lower, Hy, is_hex_string_lower. exact Hhex. }
    assert (Hyeven : Nat.even (String.length y) = true).
    { rewrite <- length_lower, Hy, length_lower. exact Heven. }
    assert (Hyne : y <> EmptyString).
    { intros ->. destruct x; [congruence | discriminate Hy]. }
    unfold TokenFun.load_wallet.
    rewrite (secretKey_of_hex_string y Hyne Hyeven Hyhex).
    rewrite <- (from_hex_lower y), Hy, from_hex_lower. exact Hload.
Qed.

(** The sender's key of the scripts. *)
Lemma key_reencoding_is_lowercase_witness :
  exists bytes,
    TokenFun.secretKey_of (TokenFun.KeyString Fixture.sender_key_hex) = Ok bytes
    /\ Keypair_fromSecretKey (Fixture.sdk (Fixture.node 0 6 [])) bytes = Ok Fixture.sender
    /\ Buffer.toString_hex bytes = toLowerCase Fixture.sender_key_hex
    /\ (toLowerCase Fixture.sender_key_hex = Fixture.sender_key_hex ->
        Buffer.toString_hex bytes = Fixture.sender_key_hex)
    /\ (forall y, toLowerCase y = toLowerCase Fixture.sender_key_hex ->
                  TokenFun.load_wallet (Fixture.sdk (Fixture.node 0 6 []))
                    (TokenFun.KeyString y) = Ok Fixture.sender).
Proof.
  apply (key_reencoding_is_lowercase (Fixture.sdk (Fixture.node 0 6 []))
           Fixture.sender_key_hex Fixture.sender);
    vm_compute; reflexivity.
Defined.

(** C8 as stated fails on upper-case digits: the sender's key written in
    upper case is a string of hexadecimal digits of even length that the
    scheme accepts, and encoding its decoded bytes does not give it back. *)
Lemma uppercase_key_not_reproduced :
  is_hex_string Fixture.sender_key_hex_upper = true
  /\ Nat.even (String.length Fixture.sender_key_hex_upper) = true
  /\ TokenFun.load_wallet (Fixture.sdk (Fixture.node 0 6 [])) (TokenFun.KeyString Fixture.sender_key_hex_upper)
     = Ok Fixture.sender
  /\ exists bytes,
       TokenFun.secretKey_of (TokenFun.KeyString Fixture.sender_key_hex_upper) = Ok bytes
       /\ Buffer.toString_hex bytes <> Fixture.sender_key_hex_upper.
Proof.
  split; [vm_compute; reflexivity |].
  split; [vm_compute; reflexivity |].
  split; [vm_compute; reflexivity |].
  eexists. split; [vm_compute; reflexivity |].
  vm_compute. discriminate.
Qed.

(** ** Token creation *)

(** C10: whatever the key, the configuration and the answers of the SDK and
    of the node, [createTokenWithMetadata] resolves to the failure result
    [{success: false, error}] and hands nothing to the network: building the
    seventh instruction evaluates an identifier the module does not bind. *)
Theorem create_token_always_fails :
  forall (sdk : Sdk) (config : Config) (privateKey : TokenFun.PrivateKey) (st : Process),
  exists error st',
    TokenFun.createTokenWithMetadata sdk config privateKey st
      = (Ok (TokenFun.Failure error), st')
    /\ submitted st' = submitted st.
Proof.
  intros sdk config privateKey st.
  unfold TokenFun.createTokenWithMetadata.
  rewrite metadata_builder_unbound.
  unfold_effects.
  repeat next_case; eauto.
Qed.


(** Once the queries before the construction have been answered, and when
    the builders take the decimals and the amount, the failure is the
    [ReferenceError] of the metadata builder. *)
Lemma create_token_fails_at_metadata :
  forall (sdk : Sdk) (config : Config) (privateKey : TokenFun.PrivateKey) (st : Process)
         (wallet : Keypair) (connection : Connection) (balance : Number)
         (associatedTokenAccount : PublicKey) (pda : PublicKey * Z)
         (rentExemptBalance : Number),
    let mint := publicKey (Keypair_generate sdk) in
    TokenFun.load_wallet sdk privateKey = Ok wallet ->
    new_Connection sdk (SolanaNetwork config) = Ok connection ->
    getBalance connection (publicKey wallet) = Ok balance ->
    getAssociatedTokenAddress sdk mint (publicKey wallet) = Ok associatedTokenAccount ->
    findProgramAddressSync sdk
      [SeedText "metadata"; SeedKey TokenFun.TOKEN_METADATA_PROGRAM_ID; SeedKey mint]
      TokenFun.TOKEN_METADATA_PROGRAM_ID = Ok pda ->
    getMinimumBalanceForRentExemptMint connection = Ok rentExemptBalance ->
    is_u8 (tc_decimals (TOKEN_CONFIG config)) = true ->
    is_u64 (mul (tc_initialSupply (TOKEN_CONFIG config))
                (Math_pow10 (tc_decimals (TOKEN_CONFIG config)))) = true ->
    fst (TokenFun.createTokenWithMetadata sdk config privateKey st)
    = Ok (TokenFun.Failure
            (message (ReferenceError "createCreateMetadataAccountV3Instruction"))).
Proof.
  intros sdk config privateKey st wallet connection balance associatedTokenAccount pda
         rentExemptBalance mint Hw Hc Hb Ha Hp Hr Hdec Hamt.
  unfold TokenFun.createTokenWithMetadata.
  rewrite metadata_builder_unbound.
  unfold_effects.
  answered Hw. answered Hc. answered Hb.
  fold mint. answered Ha. answered Hp. answered Hr.
  rewrite Hdec, Hamt.
  reflexivity.
Qed.

(** Starting from a fresh process, the transaction [createTokenWithMetadata]
    builds never holds more than six instructions, and never a metadata
    instruction. *)
Lemma create_token_never_adds_metadata :
  forall (sdk : Sdk) (config : Config) (privateKey : TokenFun.PrivateKey),
    let tx := transaction
                (snd (TokenFun.createTokenWithMetadata sdk config privateKey initial)) in
    (List.length (instructions tx) <= 6)%nat
    /\ forall accounts args, ~ In (CreateMetadataAccountV3 accounts args) (instructions tx).
Proof.
  intros sdk config privateKey.
  unfold TokenFun.createTokenWithMetadata.
  rewrite metadata_builder_unbound.
  unfold_effects.
  repeat next_case; cbn; (split; [lia | intros accounts args HIn]);
    repeat (destruct HIn as [HIn | HIn]; [discriminate HIn |]); exact HIn.
Qed.

(** C1 (the code stops short of the seventh instruction): on the script's
    own invocation, with a funded wallet and a node that answers every
    query, the transaction holds the first six instructions of the
    specified order when the construction of the seventh, the metadata
    instruction, throws; the operation reports the failure and submits
    nothing. *)
Theorem create_token_stops_at_six_instructions :
  let wallet := publicKey Fixture.sender in
  let mint := publicKey Fixture.recipient in
  let ata := Pubkey ("ata(" ++ Fixture.sender_address ++ "," ++ Fixture.recipient_address ++ ")") in
  TokenFun.createTokenWithMetadata
    (Fixture.sdk (Fixture.node 1000000000 6 []))
    (Fixture.config 6 (of_Z 1000000))
    (TokenFun.KeyString Fixture.sender_key_hex) initial
  = (Ok (TokenFun.Failure
           [Lit "createCreateMetadataAccountV3Instruction"; Lit " is not defined"]),
     mkProcess
       (mkTransaction
          [ SetComputeUnitLimit 250000;
            SetComputeUnitPrice 200000;
            SystemCreateAccount wallet mint 82 (of_Z 1461600) TOKEN_PROGRAM_ID;
            InitializeMint mint 6 wallet wallet TOKEN_PROGRAM_ID;
            CreateAssociatedTokenAccount wallet ata wallet mint
              TOKEN_PROGRAM_ID ASSOCIATED_TOKEN_PROGRAM_ID;
            MintTo mint ata wallet (of_Z 1000000000000) [] TOKEN_PROGRAM_ID ]
          None None)
       []).
Proof. vm_compute. reflexivity. Qed.

(** The mint builder takes every representable amount below [2^64]. *)
Lemma is_u64_of_Z (n : Z) :
  0 <= n < 2 ^ 64 -> representable n = true -> is_u64 (of_Z n) = true.
Proof.
  intros Hn Hrep.
  assert (Hbig : Z.log2 n <= 1023).
  { destruct (Z.eq_dec n 0) as [-> | Hnz]; [simpl; lia |].
    assert (Z.log2 n < 64) by (apply Z.log2_lt_pow2; lia). lia. }
  unfold is_u64. rewrite to_Z_representable by (assumption || lia).
  replace (0 <=? n) with true by (symmetry; apply Z.leb_le; lia).
  replace (n <? 2 ^ 64) with true by (symmetry; apply Z.ltb_lt; lia).
  reflexivity.
Qed.

(** C2 (as amended): once the queries before the construction have been
    answered, the sixth instruction is the mint instruction, and for a
    configured supply of [A] whole units and [D <= 22] decimals, where [A]
    and [A * 10^D] are integers that binary64 represents and [A * 10^D] is
    below [2^64], its amount is [A * 10^D] exactly.  The product is a
    binary64 multiplication, exact on these integers. *)
Theorem mint_amount_exact_when_representable :
  forall (sdk : Sdk) (config : Config) (privateKey : TokenFun.PrivateKey) (st : Process)
         (wallet : Keypair) (connection : Connection) (balance : Number)
         (associatedTokenAccount : PublicKey) (pda : PublicKey * Z)
         (rentExemptBalance : Number) (A : Z),
    let mint := publicKey (Keypair_generate sdk) in
    let D := Z.of_N (tc_decimals (TOKEN_CONFIG config)) in
    TokenFun.load_wallet sdk privateKey = Ok wallet ->
    new_Connection sdk (SolanaNetwork config) = Ok connection ->
    getBalance connection (publicKey wallet) = Ok balance ->
    getAssociatedTokenAddress sdk mint (publicKey wallet) = Ok associatedTokenAccount ->
    findProgramAddressSync sdk
      [SeedText "metadata"; SeedKey TokenFun.TOKEN_METADATA_PROGRAM_ID; SeedKey mint]
      TokenFun.TOKEN_METADATA_PROGRAM_ID = Ok pda ->
    getMinimumBalanceForRentExemptMint connection = Ok rentExemptBalance ->
    tc_initialSupply (TOKEN_CONFIG config) = of_Z A ->
    0 <= A ->
    D <= 22 ->
    representable A = true ->
    representable (A * 10 ^ D) = true ->
    A * 10 ^ D < 2 ^ 64 ->
    exists amount,
      nth_error
        (instructions
           (transaction (snd (TokenFun.createTokenWithMetadata sdk config privateKey st))))
        5
      = Some (MintTo mint associatedTokenAccount (publicKey wallet) amount []
                TOKEN_PROGRAM_ID)
      /\ amount = of_Z (A * 10 ^ D)
      /\ to_Z amount = Some (A * 10 ^ D).
Proof.
  intros sdk config privateKey st wallet connection balance associatedTokenAccount pda
         rentExemptBalance A mint D Hw Hc Hb Ha Hp Hr HA HA0 HD HrA HrP Hu64.
  assert (HD0 : 0 <= D) by (unfold D; lia).
  assert (Hpow : 0 < 10 ^ D) by (apply Z.pow_pos_nonneg; lia).
  destruct (pow10_representable D ltac:(lia)) as [HrD HbigD].
  assert (HbigP : Z.log2 (A * 10 ^ D) <= 1023).
  { destruct (Z.eq_dec (A * 10 ^ D) 0) as [-> | Hnz]; [simpl; lia |].
    assert (Z.log2 (A * 10 ^ D) < 64) by (apply Z.log2_lt_pow2; nia). lia. }
  assert (Hmul : mul (of_Z A) (Math_pow10 (tc_decimals (TOKEN_CONFIG config)))
                 = of_Z (A * 10 ^ D)).
  { unfold Math_pow10. fold D.
    destruct (Z.eq_dec A 0) as [-> | Hnz].
    - destruct (of_Z_representable (10 ^ D) Hpow HrD HbigD) as (M & E & _).
      rewrite E. reflexivity.
    - apply mul_representable; (assumption || lia). }
  exists (of_Z (A * 10 ^ D)).
  split; [| split; [reflexivity | apply to_Z_representable; (assumption || nia)]].
  unfold TokenFun.createTokenWithMetadata.
  rewrite metadata_builder_unbound.
  unfold_effects.
  answered Hw. answered Hc. answered Hb.
  fold mint. answered Ha. answered Hp. answered Hr.
  replace (is_u8 (tc_decimals (TOKEN_CONFIG config))) with true
    by (symmetry; unfold is_u8; apply N.ltb_lt; unfold D in HD; lia).
  rewrite HA, Hmul.
  rewrite is_u64_of_Z by (assumption || nia).
  reflexivity.
Qed.

(** The scenario of the specification: 6 decimals and 1,000,000 whole
    units give 1,000,000,000,000 smallest units. *)
Lemma mint_amount_exact_when_representable_witness :
  exists amount,
    nth_error
      (instructions
         (transaction
            (snd (TokenFun.createTokenWithMetadata
                    (Fixture.sdk (Fixture.node 1000000000 6 []))
                    (Fixture.config 6 (of_Z 1000000))
                    (TokenFun.KeyString Fixture.sender_key_hex) initial))))
      5
    = Some (MintTo (publicKey Fixture.recipient)
              (Pubkey ("ata(" ++ Fixture.sender_address ++ "," ++ Fixture.recipient_address ++ ")"))
              (publicKey Fixture.sender) amount [] TOKEN_PROGRAM_ID)
    /\ amount = of_Z (1000000 * 10 ^ 6)
    /\ to_Z amount = Some 1000000000000.
Proof.
  apply (mint_amount_exact_when_representable
           (Fixture.sdk (Fixture.node 1000000000 6 []))
           (Fixture.config 6 (of_Z 1000000))
           (TokenFun.KeyString Fixture.sender_key_hex) initial
           Fixture.sender (Fixture.node 1000000000 6 []) (of_Z 1000000000)
           (Pubkey ("ata(" ++ Fixture.sender_address ++ "," ++ Fixture.recipient_address ++ ")"))
           (Pubkey ("pda(" ++ "metaqbxxUerdq28cj1RbAWkYQm3ybzjb6a8bt518x1s" ++ ")"), 255)
           (of_Z 1461600) 1000000);
    try (vm_compute; reflexivity); vm_compute; discriminate.
Defined.

(** Within the amended statement: every product up to [2^53], and products
    beyond it such as [10^9 * 10^9], the 9-decimal supply of one billion. *)
Lemma representable_products :
  (forall A D, 0 <= A -> 0 <= D -> A * 10 ^ D <= 2 ^ 53 ->
               representable A = true /\ representable (A * 10 ^ D) = true)
  /\ representable (10 ^ 9) = true
  /\ representable (10 ^ 9 * 10 ^ 9) = true
  /\ mul (of_Z (10 ^ 9)) (Math_pow10 9) = of_Z (10 ^ 18)
  /\ to_Z (of_Z (10 ^ 18)) = Some (10 ^ 18).
Proof.
  split; [| repeat split; vm_compute; reflexivity].
  intros A D HA HD Hsafe.
  assert (Hpow : 1 <= 10 ^ D) by (apply Z.lt_pred_le, Z.pow_pos_nonneg; lia).
  split; apply safe_integer_representable; nia.
Qed.

(** C2 as stated fails beyond [2^53]: 12,345,678,901 whole units at 9
    decimals are minted as 12,345,678,900,999,999,488 smallest units, 512
    short of the exact product, which no binary64 value represents. *)
Lemma mint_amount_rounds_large_supply :
  let config := Fixture.config 9 (of_Z 12345678901) in
  to_Z (tc_initialSupply (TOKEN_CONFIG config)) = Some 12345678901
  /\ exists mint destination authority amount,
       nth_error
         (instructions
            (transaction
               (snd (TokenFun.createTokenWithMetadata
                       (Fixture.sdk (Fixture.node 1000000000 9 [])) config
                       (TokenFun.KeyString Fixture.sender_key_hex) initial))))
         5
       = Some (MintTo mint destination authority amount [] TOKEN_PROGRAM_ID)
       /\ to_Z amount = Some 12345678900999999488
       /\ to_Z amount <> Some (12345678901 * 10 ^ 9).
Proof.
  split; [vm_compute; reflexivity |].
  do 4 eexists.
  split; [vm_compute; reflexivity |].
  split; [vm_compute; reflexivity |].
  vm_compute. discriminate.
Qed.

(** ** Native transfer *)

(** The then-branch of the pre-flight check: when the test of the code,
    on the quotient [balance / 1000000000], holds, [transferSOL] throws the
    insufficient-balance error and leaves the process as it found it. *)
Lemma transferSOL_check_refuses :
  forall (sdk : Sdk) (config : Config)
         (senderPrivateKeyHex recipientPublicKeyStr : string) (amountSOL : Number)
         (connection : Connection) (senderKeypair : Keypair)
         (balance : Number) (st : Process),
    new_Connection sdk (SolanaNetwork config) = Ok connection ->
    Keypair_fromSecretKey sdk (Buffer.from_hex senderPrivateKeyHex) = Ok senderKeypair ->
    getBalance connection (publicKey senderKeypair) = Ok balance ->
    lt (div balance (of_Z 1000000000)) amountSOL = true ->
    WalletFun.transferSOL sdk config senderPrivateKeyHex recipientPublicKeyStr amountSOL st
    = (Throw (WalletFun.insufficient_SOL (div balance (of_Z 1000000000)) amountSOL), st).
Proof.
  intros sdk config key rcpt amountSOL connection senderKeypair balance st Hc Hk Hb Hlt.
  unfold WalletFun.transferSOL. unfold_effects.
  answered Hc. answered Hk. answered Hb.
  rewrite Hlt. reflexivity.
Qed.

(** A payer holding 0.001 SOL asks to send 0.005 SOL. *)
Lemma transferSOL_check_refuses_scenario :
  WalletFun.transferSOL (Fixture.sdk (Fixture.node 1000000 6 []))
    (Fixture.config 6 (of_Z 1000000))
    Fixture.sender_key_hex Fixture.recipient_address (decimal 5 3) initial
  = (Throw (WalletFun.insufficient_SOL (div (of_Z 1000000) (of_Z 1000000000)) (decimal 5 3)),
     initial).
Proof.
  apply (transferSOL_check_refuses
           (Fixture.sdk (Fixture.node 1000000 6 [])) (Fixture.config 6 (of_Z 1000000))
           Fixture.sender_key_hex Fixture.recipient_address (decimal 5 3)
           (Fixture.node 1000000 6 []) Fixture.sender (of_Z 1000000) initial);
    vm_compute; reflexivity.
Qed.

(** C6 (the pre-flight check compares rounded SOL amounts, not lamports): a
    payer holding 9,000,000,000,000,001 lamports asks to send
    9000000.000000002 SOL.  The amount is the Number [4831838208000001 *
    2^-29], more than the balance, but the quotient [balance / 1000000000]
    rounds to that same Number, so the check does not refuse: the transfer
    of 9,000,000,000,000,002 lamports, one more than the payer holds, is
    built and submitted, and the result is the node's verdict on it. *)
Theorem transferSOL_check_misses_one_lamport :
  let balance := 9000000000000001 in
  let amountSOL := decimal 9000000000000002 9 in
  let node := Fixture.node balance 6 [] in
  let out := WalletFun.transferSOL (Fixture.sdk node) (Fixture.config 6 (of_Z 1000000))
               Fixture.sender_key_hex Fixture.recipient_address amountSOL initial in
  getBalance node (publicKey Fixture.sender) = Ok (of_Z balance)
  /\ to_Z (of_Z balance) = Some balance
  /\ amountSOL = S754_finite false 4831838208000001 (-29)
  /\ balance * 2 ^ 29 < 4831838208000001 * 10 ^ 9
  /\ div (of_Z balance) (of_Z 1000000000) = amountSOL
  /\ lt (div (of_Z balance) (of_Z 1000000000)) amountSOL = false
  /\ mul amountSOL (of_Z 1000000000) = of_Z (balance + 1)
  /\ to_Z (of_Z (balance + 1)) = Some (balance + 1)
  /\ exists blockhash : Blockhash,
       getLatestBlockhash node = Ok blockhash
       /\ let tx := transfer_of Fixture.sender (publicKey Fixture.recipient)
                      (of_Z (balance + 1)) blockhash in
          submitted (snd out) = [Build_Submission tx [Fixture.sender] None]
          /\ fst out = confirm node tx [Fixture.sender] None.
Proof.
  cbv zeta.
  split; [vm_compute; reflexivity |].
  split; [vm_compute; reflexivity |].
  split; [vm_compute; reflexivity |].
  split; [vm_compute; reflexivity |].
  split; [vm_compute; reflexivity |].
  split; [vm_compute; reflexivity |].
  split; [vm_compute; reflexivity |].
  split; [vm_compute; reflexivity |].
  eexists.
  split; [vm_compute; reflexivity |].
  split; vm_compute; reflexivity.
Qed.

(** Past the check, an amount whose product with [1000000000] the transfer
    builder cannot encode makes [transferSOL] throw the builder's error,
    before a transaction exists: the process is as it was found. *)
Lemma transferSOL_builder_throws :
  forall (sdk : Sdk) (config : Config)
         (senderPrivateKeyHex recipientPublicKeyStr : string) (amountSOL : Number)
         (connection : Connection) (senderKeypair : Keypair)
         (recipient : PublicKey) (balance : Number) (st : Process),
    new_Connection sdk (SolanaNetwork config) = Ok connection ->
    Keypair_fromSecretKey sdk (Buffer.from_hex senderPrivateKeyHex) = Ok senderKeypair ->
    getBalance connection (publicKey senderKeypair) = Ok balance ->
    lt (div balance (of_Z 1000000000)) amountSOL = false ->
    new_PublicKey sdk recipientPublicKeyStr = Ok recipient ->
    is_u64 (mul amountSOL (of_Z 1000000000)) = false ->
    WalletFun.transferSOL sdk config senderPrivateKeyHex recipientPublicKeyStr amountSOL st
    = (Throw (encoding_error sdk "SystemProgram.transfer"
                (mul amountSOL (of_Z 1000000000))), st).
Proof.
  intros sdk config key rcpt amountSOL connection senderKeypair recipient balance st
         Hc Hk Hb Hlt Hr Hu.
  unfold WalletFun.transferSOL. unfold_effects.
  answered Hc. answered Hk. answered Hb.
  rewrite Hlt. answered Hr. rewrite Hu. reflexivity.
Qed.

(** Every transaction [transferSOL] submits consists of one transfer
    instruction, whose amount is the product [amountSOL * 1000000000]. *)
Lemma transferSOL_submission_shape :
  forall (sdk : Sdk) (config : Config)
         (senderPrivateKeyHex recipientPublicKeyStr : string) (amountSOL : Number)
         (st : Process) (sub : Submission),
    submitted (snd (WalletFun.transferSOL sdk config senderPrivateKeyHex
                      recipientPublicKeyStr amountSOL st))
      = submitted st ++ [sub] ->
    exists fromPubkey toPubkey,
      instructions (sub_transaction sub)
      = [SystemTransfer fromPubkey toPubkey (mul amountSOL (of_Z 1000000000))].
Proof.
  intros sdk config key rcpt amountSOL st sub.
  unfold WalletFun.transferSOL. unfold_effects.
  repeat next_case; intro H;
    try (exfalso; exact (not_extended _ _ H)).
  all: apply app_inv_head in H; injection H as <-; cbn [sub_transaction instructions].
  all: do 2 eexists; reflexivity.
Qed.

(** The scenario of the specification: 0.005 SOL is 5,000,000 lamports. *)
Lemma transferSOL_scenario_amount :
  mul (decimal 5 3) (of_Z 1000000000) = of_Z 5000000
  /\ to_Z (mul (decimal 5 3) (of_Z 1000000000)) = Some 5000000.
Proof. vm_compute. split; reflexivity. Qed.

(** The scenario, end to end: a funded payer sends 0.005 SOL, and the
    submitted transaction is the single transfer of 5,000,000 lamports. *)
Lemma transferSOL_scenario :
  let out := WalletFun.transferSOL (Fixture.sdk (Fixture.node 10000000000 6 []))
               (Fixture.config 6 (of_Z 1000000))
               Fixture.sender_key_hex Fixture.recipient_address (decimal 5 3) initial in
  exists sub,
    submitted (snd out) = [sub]
    /\ instructions (sub_transaction sub)
       = [SystemTransfer (publicKey Fixture.sender) (publicKey Fixture.recipient)
            (of_Z 5000000)].
Proof.
  eexists. split; vm_compute; reflexivity.
Qed.

(** C7 (the code does not convert the amount to an integer): a funded payer
    asks to send 4.1 SOL.  The product [4.1 * 1000000000] is the Number
    4099999999.9999995..., not an integer; rounding it would give
    4,100,000,000, but the code passes the product as it is to the transfer
    builder, which cannot encode it and throws: no transaction is built and
    none is submitted. *)
Theorem transferSOL_fractional_lamports :
  let sdk := Fixture.sdk (Fixture.node 10000000000 6 []) in
  let lamports := mul (decimal 41 1) (of_Z 1000000000) in
  lamports = S754_finite false 8598323199999999 (-21)
  /\ isInteger lamports = false
  /\ Math_round lamports = of_Z 4100000000
  /\ lt (div (of_Z 10000000000) (of_Z 1000000000)) (decimal 41 1) = false
  /\ WalletFun.transferSOL sdk (Fixture.config 6 (of_Z 1000000))
       Fixture.sender_key_hex Fixture.recipient_address (decimal 41 1) initial
     = (Throw (encoding_error sdk "SystemProgram.transfer" lamports), initial).
Proof.
  cbv zeta.
  split; [vm_compute; reflexivity |].
  split; [vm_compute; reflexivity |].
  split; [vm_compute; reflexivity |].
  split; [vm_compute; reflexivity |].
  vm_compute. reflexivity.
Qed.

(** ** Token transfer *)


(** Whatever happens, the list [transferToken] builds is a list of
    associated-account creations, followed by the checked transfer if the
    pre-flight check was passed. *)
Lemma transferToken_built_list_shape :
  forall (sdk : Sdk) (config : Config)
         (senderPrivateKeyHex recipientPublicKeyStr mintAddressStr : string)
         (amount : Number),
    let tx := transaction
                (snd (WalletFun.transferToken sdk config senderPrivateKeyHex
                        recipientPublicKeyStr mintAddressStr amount initial)) in
    exists creations rest,
      instructions tx = creations ++ rest
      /\ forallb is_ata_creation creations = true
      /\ (rest = []
          \/ exists source mint destination owner units decimals,
               rest = [TransferChecked source mint destination owner units decimals
                         [] TOKEN_PROGRAM_ID]).
Proof.
  intros sdk config key rcpt mintStr amount.
  unfold WalletFun.transferToken. unfold_effects.
  repeat next_case; cbn [instructions empty_Transaction app].
  all: first
    [ solve [exists (@nil Instruction), (@nil Instruction);
             repeat split; left; reflexivity]
    | solve [eexists (cons _ nil), (@nil Instruction);
             repeat split; left; reflexivity]
    | solve [eexists (cons _ (cons _ nil)), (@nil Instruction);
             repeat split; left; reflexivity]
    | solve [exists (@nil Instruction); eexists (cons _ nil);
             repeat split; right; do 6 eexists; reflexivity]
    | solve [eexists (cons _ nil), (cons _ nil);
             repeat split; right; do 6 eexists; reflexivity]
    | solve [eexists (cons _ (cons _ nil)), (cons _ nil);
             repeat split; right; do 6 eexists; reflexivity] ].
Qed.


(** C5: with a source balance of 0 smallest units and a requested amount of
    1 smallest unit, [transferToken] throws the insufficient-balance error
    of its pre-flight check, and nothing has been submitted. *)
Theorem transferToken_zero_balance_rejected :
  forall (sdk : Sdk) (config : Config)
         (senderPrivateKeyHex recipientPublicKeyStr mintAddressStr : string)
         (amount : Number) (st : Process)
         (connection : Connection) (senderKeypair : Keypair)
         (recipientPubkey mintPubkey sourceAta destAta : PublicKey)
         (sourceInfo destInfo : option AccountInfo) (mintInfo : MintInfo),
    new_Connection sdk (SolanaNetwork config) = Ok connection ->
    Keypair_fromSecretKey sdk (Buffer.from_hex senderPrivateKeyHex) = Ok senderKeypair ->
    new_PublicKey sdk recipientPublicKeyStr = Ok recipientPubkey ->
    new_PublicKey sdk mintAddressStr = Ok mintPubkey ->
    getAssociatedTokenAddress sdk mintPubkey (publicKey senderKeypair) = Ok sourceAta ->
    getAssociatedTokenAddress sdk mintPubkey recipientPubkey = Ok destAta ->
    getAccountInfo connection sourceAta = Ok sourceInfo ->
    getAccountInfo connection destAta = Ok destInfo ->
    getMint connection mintPubkey = Ok mintInfo ->
    getTokenAccountBalance connection sourceAta = Ok "0"%string ->
    Math_round (mul amount (Math_pow10 (mint_decimals mintInfo))) = of_Z 1 ->
    exists st',
      WalletFun.transferToken sdk config senderPrivateKeyHex recipientPublicKeyStr
        mintAddressStr amount st
      = (Throw (WalletFun.insufficient_token (of_Z 0) (of_Z 1)), st')
      /\ submitted st' = submitted st.
Proof.
  intros sdk config key rcpt mintStr amount st connection senderKeypair
         recipientPubkey mintPubkey sourceAta destAta sourceInfo destInfo mintInfo
         Hc Hk Hr Hm Hs Hd Hsi Hdi Hmi Hbal Hamt.
  unfold WalletFun.transferToken. unfold_effects.
  answered Hc. answered Hk. answered Hr. answered Hm. answered Hs. answered Hd.
  answered Hsi. answered Hdi.
  destruct sourceInfo, destInfo; cbv beta iota; cbn [fst snd transaction submitted];
    answered Hmi; rewrite Hbal, Hamt;
    change (lt (parseInt "0" 10) (of_Z 1)) with true; cbv beta iota;
    eexists; split; reflexivity.
Qed.

(** The sender's token account exists and is empty; one millionth of a
    6-decimal token, one smallest unit, is requested. *)
Lemma transferToken_zero_balance_rejected_witness :
  exists st',
    WalletFun.transferToken
      (Fixture.sdk (Fixture.node 10000000000 6 [(Fixture.sender_ata, "0"%string)]))
      (Fixture.config 6 (of_Z 1000000))
      Fixture.sender_key_hex Fixture.recipient_address Fixture.mint_address
      (decimal 1 6) initial
    = (Throw (WalletFun.insufficient_token (of_Z 0) (of_Z 1)), st')
    /\ submitted st' = submitted initial.
Proof.
  apply (transferToken_zero_balance_rejected
           (Fixture.sdk (Fixture.node 10000000000 6 [(Fixture.sender_ata, "0"%string)]))
           (Fixture.config 6 (of_Z 1000000))
           Fixture.sender_key_hex Fixture.recipient_address Fixture.mint_address
           (decimal 1 6) initial
           (Fixture.node 10000000000 6 [(Fixture.sender_ata, "0"%string)])
           Fixture.sender (Pubkey Fixture.recipient_address) (Pubkey Fixture.mint_address)
           Fixture.sender_ata Fixture.recipient_ata
           (Some {| ai_lamports := of_Z 2039280; ai_owner := TOKEN_PROGRAM_ID |}) None
           {| mint_decimals := 6; mint_supply := 1000000000000 |});
    vm_compute; reflexivity.
Defined.

(** C9: a balance lookup that throws is the same as a balance of ["0"]: the
    run is the run against the node that answers ["0"], and so, once the
    queries before the check have been answered, a positive requested amount
    is refused with the insufficient-balance error, the thrown lookup error
    being dropped, and nothing is submitted. *)
Theorem balance_lookup_failure_is_zero :
  forall (sdk : Sdk) (config : Config)
         (senderPrivateKeyHex recipientPublicKeyStr mintAddressStr : string)
         (amount : Number) (st : Process)
         (connection : Connection) (senderKeypair : Keypair)
         (mintPubkey sourceAta : PublicKey) (lookup_error : JsError),
    new_Connection sdk (SolanaNetwork config) = Ok connection ->
    Keypair_fromSecretKey sdk (Buffer.from_hex senderPrivateKeyHex) = Ok senderKeypair ->
    new_PublicKey sdk mintAddressStr = Ok mintPubkey ->
    getAssociatedTokenAddress sdk mintPubkey (publicKey senderKeypair) = Ok sourceAta ->
    getTokenAccountBalance connection sourceAta = Throw lookup_error ->
    WalletFun.transferToken sdk config senderPrivateKeyHex recipientPublicKeyStr
      mintAddressStr amount st
    = WalletFun.transferToken
        (connected_to sdk (answering_balance connection (Ok "0"%string)))
        config senderPrivateKeyHex recipientPublicKeyStr mintAddressStr amount st
    /\ forall (recipientPubkey destAta : PublicKey)
              (sourceInfo destInfo : option AccountInfo) (mintInfo : MintInfo),
         new_PublicKey sdk recipientPublicKeyStr = Ok recipientPubkey ->
         getAssociatedTokenAddress sdk mintPubkey recipientPubkey = Ok destAta ->
         getAccountInfo connection sourceAta = Ok sourceInfo ->
         getAccountInfo connection destAta = Ok destInfo ->
         getMint connection mintPubkey = Ok mintInfo ->
         let amountInSmallestUnits :=
           Math_round (mul amount (Math_pow10 (mint_decimals mintInfo))) in
         lt (of_Z 0) amountInSmallestUnits = true ->
         exists st',
           WalletFun.transferToken sdk config senderPrivateKeyHex recipientPublicKeyStr
             mintAddressStr amount st
           = (Throw (WalletFun.insufficient_token (of_Z 0) amountInSmallestUnits), st')
           /\ submitted st' = submitted st.
Proof.
  intros sdk config key rcpt mintStr amount st connection senderKeypair
         mintPubkey sourceAta lookup_error Hc Hk Hm Hs Hbal.
  split.
  - unfold WalletFun.transferToken. unfold_effects.
    cbn [connected_to answering_balance new_Connection Keypair_fromSecretKey
         new_PublicKey getAssociatedTokenAddress getAccountInfo getMint
         getTokenAccountBalance getLatestBlockhash confirm].
    answered Hc. answered Hk.
    destruct (new_PublicKey sdk rcpt) as [recipientPubkey |]; [| reflexivity].
    cbv beta iota. answered Hm. answered Hs.
    cbn [answering_balance getAccountInfo getMint getTokenAccountBalance
         getLatestBlockhash confirm].
    rewrite Hbal.
    change (parseInt "0" 10) with (of_Z 0).
    reflexivity.
  - intros recipientPubkey destAta sourceInfo destInfo mintInfo
           Hr Hd Hsi Hdi Hmi amountInSmallestUnits Hpos.
    unfold WalletFun.transferToken. unfold_effects.
    answered Hc. answered Hk. answered Hr. answered Hm. answered Hs. answered Hd.
    answered Hsi. answered Hdi.
    destruct sourceInfo, destInfo; cbv beta iota; cbn [fst snd transaction submitted];
      answered Hmi; rewrite Hbal; fold amountInSmallestUnits; rewrite Hpos;
      eexists; split; reflexivity.
Qed.

(** The sender has no token account, so the balance lookup throws; 0.005
    of a 6-decimal token, 5000 smallest units, is requested. *)
Lemma balance_lookup_failure_is_zero_witness :
  exists st',
    WalletFun.transferToken (Fixture.sdk (Fixture.node 10000000000 6 []))
      (Fixture.config 6 (of_Z 1000000))
      Fixture.sender_key_hex Fixture.recipient_address Fixture.mint_address
      (decimal 5 3) initial
    = (Throw (WalletFun.insufficient_token (of_Z 0) (of_Z 5000)), st')
    /\ submitted st' = submitted initial.
Proof.
  destruct (balance_lookup_failure_is_zero
              (Fixture.sdk (Fixture.node 10000000000 6 []))
              (Fixture.config 6 (of_Z 1000000))
              Fixture.sender_key_hex Fixture.recipient_address Fixture.mint_address
              (decimal 5 3) initial
              (Fixture.node 10000000000 6 []) Fixture.sender
              (Pubkey Fixture.mint_address) Fixture.sender_ata
              (Error [Lit "failed to get token account balance: could not find account"])
              eq_refl eq_refl eq_refl eq_refl eq_refl) as [_ Hrefused].
  apply (Hrefused (Pubkey Fixture.recipient_address) Fixture.recipient_ata None None
           {| mint_decimals := 6; mint_supply := 1000000000000 |});
    vm_compute; reflexivity.
Defined.

(** When the two associated accounts differ, the transaction holds one
    creation of the recipient's account if the node reports it absent, and
    none if the node reports it present. *)
Lemma transferToken_recipient_creation :
  forall (sdk : Sdk) (config : Config)
         (senderPrivateKeyHex recipientPublicKeyStr mintAddressStr : string)
         (amount : Number)
         (connection : Connection) (senderKeypair : Keypair)
         (recipientPubkey mintPubkey sourceAta destAta : PublicKey)
         (sourceInfo destInfo : option AccountInfo),
    new_Connection sdk (SolanaNetwork config) = Ok connection ->
    Keypair_fromSecretKey sdk (Buffer.from_hex senderPrivateKeyHex) = Ok senderKeypair ->
    new_PublicKey sdk recipientPublicKeyStr = Ok recipientPubkey ->
    new_PublicKey sdk mintAddressStr = Ok mintPubkey ->
    getAssociatedTokenAddress sdk mintPubkey (publicKey senderKeypair) = Ok sourceAta ->
    getAssociatedTokenAddress sdk mintPubkey recipientPubkey = Ok destAta ->
    getAccountInfo connection sourceAta = Ok sourceInfo ->
    getAccountInfo connection destAta = Ok destInfo ->
    PublicKey_eqb sourceAta destAta = false ->
    creations_for destAta
      (transaction (snd (WalletFun.transferToken sdk config senderPrivateKeyHex
                           recipientPublicKeyStr mintAddressStr amount initial)))
    = match destInfo with None => 1%nat | Some _ => 0%nat end.
Proof.
  intros sdk config key rcpt mintStr amount connection senderKeypair
         recipientPubkey mintPubkey sourceAta destAta sourceInfo destInfo
         Hc Hk Hr Hm Hs Hd Hsi Hdi Hneq.
  assert (Hrefl : PublicKey_eqb destAta destAta = true)
    by (unfold PublicKey_eqb; apply String.eqb_refl).
  unfold WalletFun.transferToken. unfold_effects.
  answered Hc. answered Hk. answered Hr. answered Hm. answered Hs. answered Hd.
  answered Hsi. answered Hdi.
  destruct sourceInfo, destInfo;
    cbv beta iota; cbn [fst snd transaction submitted instructions];
    repeat next_case;
    unfold creations_for; cbn [instructions empty_Transaction app filter];
    rewrite ?Hneq, ?Hrefl; reflexivity.
Qed.

(** C4 (a missed case): the sender transfers to the sender's own address
    while the associated account does not exist.  The node reports the
    recipient's account absent, and the submitted transaction holds two
    creation instructions for it, one from the sender-side check and one
    from the recipient-side check. *)
Theorem self_transfer_creates_account_twice :
  let connection := Fixture.node 10000000000 6 [] in
  let out := WalletFun.transferToken (Fixture.sdk connection)
               (Fixture.config 6 (of_Z 1000000))
               Fixture.sender_key_hex Fixture.sender_address Fixture.mint_address
               (of_Z 0) initial in
  getAccountInfo connection Fixture.sender_ata = Ok None
  /\ exists sub,
       submitted (snd out) = [sub]
       /\ List.length (instructions (sub_transaction sub)) = 3%nat
       /\ creations_for Fixture.sender_ata (sub_transaction sub) = 2%nat.
Proof.
  split; [reflexivity |].
  eexists. split; [vm_compute; reflexivity |].
  split; vm_compute; reflexivity.
Qed.

(* ================================================================== *)
(** * Further properties of the scripts *)

(** ** Keys: formats and loaders *)

Lemma byte_law_holds (b : Z) : is_byte b = true -> byte_law (Z.to_nat b) = true.
Proof.
  intro Hb. unfold is_byte in Hb. apply andb_prop in Hb as [H0 H1].
  apply Z.leb_le in H0. apply Z.ltb_lt in H1.
  assert (Hall : forallb byte_law (seq 0 256) = true) by (vm_compute; reflexivity).
  rewrite forallb_forall in Hall. apply Hall. apply in_seq. lia.
Qed.

Lemma hex_digit_law_holds : forall c, hex_digit_law c = true.
Proof. apply for_all_ascii. vm_compute. reflexivity. Qed.

Lemma digit_value_nonneg (c : ascii) (d : Z) : digit_value c = Some d -> 0 <= d.
Proof.
  unfold digit_value. intro H.
  repeat match type of H with
         | (if ?b then _ else _) = _ => destruct b eqn:?
         end; try discriminate; injection H as <-;
    repeat match goal with
           | E : (_ && _) = true |- _ => apply andb_prop in E as [? ?]
           | E : (_ <=? _) = true |- _ => apply Z.leb_le in E
           end; lia.
Qed.

(** [Buffer.from(s, 'hex')] holds byte values, whatever the string. *)
Lemma from_hex_bytes : forall s, forallb is_byte (Buffer.from_hex s) = true.
Proof.
  induction s as [| c | c1 c2 s IH] using string_pairs_ind; try reflexivity.
  cbn [Buffer.from_hex].
  destruct (digit_value c1) as [h |] eqn:H1; [| reflexivity].
  destruct (digit_value c2) as [l |] eqn:H2; [| reflexivity].
  destruct ((h <? 16) && (l <? 16)) eqn:Hlt; [| reflexivity].
  apply andb_prop in Hlt as [Hh Hl]. apply Z.ltb_lt in Hh, Hl.
  apply digit_value_nonneg in H1, H2.
  cbn [forallb]. rewrite IH. unfold is_byte.
  replace (0 <=? 16 * h + l) with true by (symmetry; apply Z.leb_le; lia).
  replace (16 * h + l <? 256) with true by (symmetry; apply Z.ltb_lt; lia).
  reflexivity.
Qed.

Lemma ToUint8_of_byte (b : Z) : is_byte b = true -> ToUint8 (of_Z b) = b.
Proof.
  intro Hb. pose proof (byte_law_holds b Hb) as H. unfold byte_law in H.
  apply andb_prop in H as [_ H]. apply Z.eqb_eq in H.
  unfold is_byte in Hb. apply andb_prop in Hb as [H0 _]. apply Z.leb_le in H0.
  rewrite Z2Nat.id in H by lia. exact H.
Qed.

Lemma ToUint8_of_bytes (bs : list Z) :
  forallb is_byte bs = true -> map ToUint8 (map of_Z bs) = bs.
Proof.
  induction bs as [| b bs IH]; intro H; [reflexivity |].
  cbn [forallb] in H. apply andb_prop in H as [Hb H].
  cbn [map]. rewrite ToUint8_of_byte, IH by assumption. reflexivity.
Qed.

(** The hexadecimal print of byte values: digits only, two per byte, and
    [Buffer.from] reads the bytes back. *)
Lemma toString_hex_spec (bs : list Z) :
  forallb is_byte bs = true ->
  is_hex_string (Buffer.toString_hex bs) = true
  /\ String.length (Buffer.toString_hex bs) = (2 * List.length bs)%nat
  /\ Buffer.from_hex (Buffer.toString_hex bs) = bs.
Proof.
  induction bs as [| b bs IH]; intro H; [repeat split |].
  cbn [forallb] in H. apply andb_prop in H as [Hb H].
  destruct (IH H) as (IHh & IHl & IHd).
  pose proof (byte_law_holds b Hb) as Hlaw. unfold byte_law in Hlaw.
  assert (Hnat : Z.of_nat (Z.to_nat b) = b).
  { unfold is_byte in Hb. apply andb_prop in Hb as [H0 _]. apply Z.leb_le in H0. lia. }
  rewrite Hnat in Hlaw.
  apply andb_prop in Hlaw as [Hlaw _]. apply andb_prop in Hlaw as [Hlaw Hdec].
  apply andb_prop in Hlaw as [Hhi Hlo].
  cbn [Buffer.toString_hex]. repeat split.
  - unfold is_hex_string in *. cbn [all_chars]. rewrite Hhi, Hlo, IHh. reflexivity.
  - cbn [String.length List.length]. rewrite IHl. lia.
  - rewrite from_hex_pair.
    destruct (Buffer.from_hex
                (String (Buffer.hex_char (b / 16))
                   (String (Buffer.hex_char (b mod 16)) EmptyString)))
      as [| b' [| ? ?]]; try discriminate Hdec.
    apply Z.eqb_eq in Hdec. subst b'. rewrite IHd. reflexivity.
Qed.

(** X1: the private key [createWalletKeypair] exports is a string of
    hexadecimal digits, two per byte of the generated secret key, and both
    key loaders read the generated secret key back from it: [Buffer.from]
    in the transfer functions, and the chunk-wise loader of
    [createTokenWithMetadata], which hands it to [Keypair.fromSecretKey]. *)
Theorem generated_wallet_key_loads_back :
  forall (sdk : Sdk),
    let keypair := Keypair_generate sdk in
    let wallet := WalletFun.createWalletKeypair sdk in
    forallb is_byte (secretKey keypair) = true ->
    secretKey keypair <> [] ->
    is_hex_string (WalletFun.w_privateKey wallet) = true
    /\ String.length (WalletFun.w_privateKey wallet)
       = (2 * List.length (secretKey keypair))%nat
    /\ Buffer.from_hex (WalletFun.w_privateKey wallet) = secretKey keypair
    /\ TokenFun.load_wallet sdk (TokenFun.KeyString (WalletFun.w_privateKey wallet))
       = Keypair_fromSecretKey sdk (secretKey keypair).
Proof.
  intros sdk keypair wallet Hbytes Hne.
  destruct (toString_hex_spec (secretKey keypair) Hbytes) as (Hhex & Hlen & Hdec).
  unfold wallet, WalletFun.createWalletKeypair. cbn [WalletFun.w_privateKey].
  fold keypair.
  repeat split; try assumption.
  unfold TokenFun.load_wallet.
  rewrite secretKey_of_hex_string; [rewrite Hdec; reflexivity | | | assumption].
  - intro Hempty. destruct (secretKey keypair); [congruence | discriminate Hempty].
  - rewrite Hlen. clear. induction (List.length (secretKey keypair)) as [| n IH];
      [reflexivity |].
    replace (2 * S n)%nat with (S (S (2 * n))) by lia. exact IH.
Qed.

(** The key pair the test SDK generates. *)
Lemma generated_wallet_key_loads_back_witness :
  let sdk := Fixture.sdk (Fixture.node 0 6 []) in
  Buffer.from_hex (WalletFun.w_privateKey (WalletFun.createWalletKeypair sdk))
  = secretKey Fixture.recipient
  /\ TokenFun.load_wallet sdk
       (TokenFun.KeyString (WalletFun.w_privateKey (WalletFun.createWalletKeypair sdk)))
     = Ok Fixture.recipient.
Proof.
  intro sdk.
  destruct (generated_wallet_key_loads_back sdk) as (_ & _ & Hdec & Hload);
    [vm_compute; reflexivity | vm_compute; discriminate |].
  split; [exact Hdec | rewrite Hload; vm_compute; reflexivity].
Defined.

(** X2: [createTokenWithMetadata] loads the same wallet from a key given as
    a non-empty hexadecimal string of even length and from the same key
    given as the array of its bytes. *)
Theorem key_array_and_string_agree :
  forall (sdk : Sdk) (x : string),
    is_hex_string x = true ->
    Nat.even (String.length x) = true ->
    x <> EmptyString ->
    TokenFun.load_wallet sdk (TokenFun.KeyArray (map of_Z (Buffer.from_hex x)))
    = TokenFun.load_wallet sdk (TokenFun.KeyString x).
Proof.
  intros sdk x Hhex Heven Hne.
  unfold TokenFun.load_wallet.
  rewrite (secretKey_of_hex_string x Hne Heven Hhex).
  cbn [TokenFun.secretKey_of].
  rewrite ToUint8_of_bytes by apply from_hex_bytes. reflexivity.
Qed.

(** The sender's key, as a string and as an array. *)
Lemma key_array_and_string_agree_witness :
  TokenFun.load_wallet (Fixture.sdk (Fixture.node 0 6 []))
    (TokenFun.KeyArray (map of_Z (Buffer.from_hex Fixture.sender_key_hex)))
  = TokenFun.load_wallet (Fixture.sdk (Fixture.node 0 6 []))
      (TokenFun.KeyString Fixture.sender_key_hex).
Proof.
  apply (key_array_and_string_agree (Fixture.sdk (Fixture.node 0 6 []))
           Fixture.sender_key_hex);
    [vm_compute; reflexivity | vm_compute; reflexivity | discriminate].
Defined.

Lemma ToUint8_byte (x : Number) : is_byte (ToUint8 x) = true.
Proof.
  unfold ToUint8, is_byte. destruct (trunc x) as [z |]; [| reflexivity].
  pose proof (Z.mod_pos_bound z 256 ltac:(lia)) as H.
  replace (0 <=? z mod 256) with true by (symmetry; apply Z.leb_le; lia).
  replace (z mod 256 <? 256) with true by (symmetry; apply Z.ltb_lt; lia).
  reflexivity.
Qed.

Lemma chunks_of_text :
  forall s,
    all_chars (fun c => negb (is_line_terminator c)) s = true ->
    List.length (match_dot_1_2 s) = Nat.div2 (S (String.length s)).
Proof.
  induction s as [| c | c1 c2 s IH] using string_pairs_ind; intro H.
  - reflexivity.
  - cbn [all_chars] in H. apply andb_prop in H as [H1 _]. apply negb_true_iff in H1.
    cbn [match_dot_1_2]. rewrite H1. reflexivity.
  - cbn [all_chars] in H. apply andb_prop in H as [H1 H]. apply andb_prop in H as [H2 H].
    apply negb_true_iff in H1, H2.
    cbn [match_dot_1_2]. rewrite H1, H2. cbn [List.length String.length Nat.div2].
    rewrite (IH H). reflexivity.
Qed.

(** X3: the loader of [createTokenWithMetadata] rejects no text: every
    non-empty string without line terminators, hexadecimal or not, of even
    length or not, becomes one byte value per chunk of two characters, a
    last single character included. *)
Theorem token_loader_takes_any_text :
  forall (s : string),
    all_chars (fun c => negb (is_line_terminator c)) s = true ->
    s <> EmptyString ->
    exists bytes,
      TokenFun.secretKey_of (TokenFun.KeyString s) = Ok bytes
      /\ List.length bytes = Nat.div2 (S (String.length s))
      /\ forallb is_byte bytes = true.
Proof.
  intros s Htext Hne.
  pose proof (chunks_of_text s Htext) as Hlen.
  unfold TokenFun.secretKey_of.
  destruct (match_dot_1_2 s) as [| chunk chunks] eqn:Hchunks.
  - exfalso. destruct s as [| c [| c' r]]; [congruence | discriminate Hlen | discriminate Hlen].
  - eexists. split; [reflexivity |]. split.
    + rewrite length_map. exact Hlen.
    + apply forallb_forall. intros b Hin. apply in_map_iff in Hin as (x & <- & _).
      apply ToUint8_byte.
Qed.

(** Nine characters that are no hexadecimal key make five bytes. *)
Lemma token_loader_takes_any_text_witness :
  exists bytes,
    TokenFun.secretKey_of (TokenFun.KeyString "not a key") = Ok bytes
    /\ List.length bytes = 5%nat
    /\ forallb is_byte bytes = true.
Proof.
  apply (token_loader_takes_any_text "not a key"); [vm_compute; reflexivity | discriminate].
Defined.

Lemma no_chunks :
  forall s, all_chars is_line_terminator s = true -> match_dot_1_2 s = [].
Proof.
  induction s as [| c s IH]; intro H; [reflexivity |].
  cbn [all_chars] in H. apply andb_prop in H as [Hc H].
  cbn [match_dot_1_2]. rewrite Hc. exact (IH H).
Qed.

(** X4: given the empty string, or line terminators only, as the key,
    [createTokenWithMetadata] returns the failure result with the
    [TypeError] of [null.map], and does so before any SDK or RPC call: the
    process is left as it was, whatever the SDK would have answered. *)
Theorem blank_key_fails_before_the_sdk :
  forall (sdk : Sdk) (config : Config) (s : string) (st : Process),
    all_chars is_line_terminator s = true ->
    TokenFun.createTokenWithMetadata sdk config (TokenFun.KeyString s) st
    = (Ok (TokenFun.Failure [Lit "Cannot read properties of null (reading 'map')"]), st).
Proof.
  intros sdk config s st H.
  unfold TokenFun.createTokenWithMetadata, TokenFun.load_wallet, TokenFun.secretKey_of.
  rewrite (no_chunks s H). reflexivity.
Qed.

(** The empty key. *)
Lemma blank_key_fails_before_the_sdk_witness :
  TokenFun.createTokenWithMetadata (Fixture.sdk (Fixture.node 1000000000 6 []))
    (Fixture.config 6 (of_Z 1000000)) (TokenFun.KeyString "") initial
  = (Ok (TokenFun.Failure [Lit "Cannot read properties of null (reading 'map')"]), initial).
Proof.
  apply (blank_key_fails_before_the_sdk (Fixture.sdk (Fixture.node 1000000000 6 []))
           (Fixture.config 6 (of_Z 1000000)) "" initial).
  reflexivity.
Defined.

(** X5: on a hexadecimal key with one digit too many the two loaders
    disagree: [Buffer.from(key, 'hex')], used by the transfers, drops the
    last digit, while [createTokenWithMetadata] turns it into one more
    byte. *)
Theorem odd_length_key_loaders_differ :
  forall (x : string) (c : ascii) (d : Z),
    is_hex_string x = true ->
    Nat.even (String.length x) = true ->
    digit_value c = Some d ->
    d < 16 ->
    Buffer.from_hex (x ++ String c EmptyString) = Buffer.from_hex x
    /\ TokenFun.secretKey_of (TokenFun.KeyString (x ++ String c EmptyString))
       = Ok (Buffer.from_hex x ++ [d]).
Proof.
  intros x c d Hhex Heven Hc Hd.
  pose proof (hex_digit_law_holds c) as Hlaw. unfold hex_digit_law, is_hex_digit in Hlaw.
  rewrite Hc in Hlaw. replace (d <? 16) with true in Hlaw by (symmetry; apply Z.ltb_lt; lia).
  cbn [implb] in Hlaw. apply andb_prop in Hlaw as [Hterm Hval].
  apply negb_true_iff in Hterm. apply Z.eqb_eq in Hval.
  assert (Hchunks :
    map (fun byte => ToUint8 (parseInt byte 16)) (match_dot_1_2 (x ++ String c EmptyString))
    = Buffer.from_hex x ++ [d]
    /\ Buffer.from_hex (x ++ String c EmptyString) = Buffer.from_hex x).
  { revert Heven Hhex.
    induction x as [| c0 | c1 c2 x IH] using string_pairs_ind; intros Heven Hhex.
    - cbn [append match_dot_1_2 Buffer.from_hex map app]. rewrite Hterm.
      cbn [map]. rewrite Hval. split; reflexivity.
    - discriminate Heven.
    - unfold is_hex_string in Hhex. cbn [all_chars] in Hhex.
      apply andb_prop in Hhex as [H1 Hhex]. apply andb_prop in Hhex as [H2 Hhex].
      destruct (IH Heven Hhex) as [IHc IHd].
      pose proof (hex_pair_law_holds c1 c2) as Hpair. unfold hex_pair_law in Hpair.
      rewrite H1, H2 in Hpair. cbn [andb implb] in Hpair.
      apply andb_prop in Hpair as [Hpair _]. apply andb_prop in Hpair as [Hpair Hdec].
      apply andb_prop in Hpair as [Hl1 Hl2]. apply negb_true_iff in Hl1, Hl2.
      cbn [append].
      rewrite (from_hex_pair c1 c2 (x ++ String c EmptyString)), (from_hex_pair c1 c2 x).
      destruct (Buffer.from_hex (String c1 (String c2 EmptyString))) as [| b [| ? ?]];
        try discriminate Hdec.
      apply Z.eqb_eq in Hdec. subst b.
      cbn [match_dot_1_2]. rewrite Hl1, Hl2. cbn [map app]. rewrite IHc, IHd.
      split; reflexivity. }
  destruct Hchunks as [Hchunks Hbuf]. split; [exact Hbuf |].
  unfold TokenFun.secretKey_of.
  destruct (match_dot_1_2 (x ++ String c EmptyString)) eqn:E.
  - cbn [map] in Hchunks. destruct (Buffer.from_hex x); discriminate Hchunks.
  - rewrite Hchunks. reflexivity.
Qed.

(** Five digits: two bytes for the transfers, three for the token creation. *)
Lemma odd_length_key_loaders_differ_witness :
  Buffer.from_hex "1762a" = [23; 98]
  /\ TokenFun.secretKey_of (TokenFun.KeyString "1762a") = Ok [23; 98; 10].
Proof.
  destruct (odd_length_key_loaders_differ "1762" "a" 10) as [Hbuf Hkey];
    [reflexivity | reflexivity | reflexivity | lia |].
  split; [exact Hbuf | exact Hkey].
Defined.

(** ** Token creation, continued *)



(** The two early stops, on the same wallet and node: 256 decimals stop the
    construction after three instructions, a supply of half a unit at 0
    decimals after five; either way the operation reports the builder's
    error and nothing is submitted. *)
Lemma create_token_early_stops :
  let sdk := Fixture.sdk (Fixture.node 1000000000 9 []) in
  let run := fun config =>
    TokenFun.createTokenWithMetadata sdk config
      (TokenFun.KeyString Fixture.sender_key_hex) initial in
  (List.length (instructions (transaction (snd (run (Fixture.config 256 (of_Z 1))))))
   = 3%nat
   /\ fst (run (Fixture.config 256 (of_Z 1)))
      = Ok (TokenFun.Failure
              (message (encoding_error sdk "createInitializeMintInstruction" (of_Z 256))))
   /\ submitted (snd (run (Fixture.config 256 (of_Z 1)))) = [])
  /\ (List.length (instructions (transaction (snd (run (Fixture.config 0 (decimal 5 1))))))
      = 5%nat
      /\ fst (run (Fixture.config 0 (decimal 5 1)))
         = Ok (TokenFun.Failure
                 (message (encoding_error sdk "createMintToInstruction" (decimal 5 1))))
      /\ submitted (snd (run (Fixture.config 0 (decimal 5 1)))) = []).
Proof.
  cbv zeta. repeat split; vm_compute; reflexivity.
Qed.

(** ** Signs and exact quotients *)

(** Rounding keeps the sign. *)
Lemma round_sign (s : bool) (m e : Z) (l : location) :
  has_sign s (binary_round_aux prec emax s m e l).
Proof.
  unfold binary_round_aux.
  destruct (shr_fexp prec emax m e l) as [mrs e'].
  destruct (shr_fexp prec emax _ e' loc_Exact) as [mrs' e''].
  destruct (shr_m mrs'); [reflexivity | | exact I].
  destruct (e'' <=? emax - prec); reflexivity.
Qed.

Lemma of_Z_sign (z : Z) : 0 <= z -> has_sign false (of_Z z).
Proof.
  intro Hz. destruct z as [| p | p]; try lia; [reflexivity |].
  unfold of_Z, binary_normalize, binary_round.
  destruct (shl_align _ _ _). apply round_sign.
Qed.

Lemma div_by_positive_sign (x : Number) (m : positive) (e : Z) :
  has_sign false x -> has_sign false (div x (S754_finite false m e)).
Proof.
  intro Hx. destruct x as [s | s | | s mx ex]; cbn [has_sign] in Hx; subst;
    try reflexivity; try exact I.
  unfold div, SFdiv.
  destruct (SFdiv_core_binary prec emax (Z.pos mx) ex (Z.pos m) e) as [[mz ez] lz].
  apply round_sign.
Qed.

(** Nothing non-negative is less than a negative amount, and nothing is
    less than [NaN]. *)
Lemma not_lt_negative (x a : Number) :
  has_sign false x -> is_negative a \/ a = NaN -> lt x a = false.
Proof.
  intros Hx [Ha | ->].
  - destruct x as [s | s | | s m e]; cbn [has_sign] in Hx; subst;
      destruct a as [sa | [|] | | [|] ma ea]; try contradiction; reflexivity.
  - destruct x; reflexivity.
Qed.

(** The binary64 quotient of a multiple [n * q] below [2^53] by [q]
    is [n]. *)
Lemma mul_negative_sign (a p : Number) :
  is_negative a -> has_sign false p -> has_sign true (mul a p).
Proof.
  intros Ha Hp.
  destruct a as [sa | [|] | | [|] ma ea]; try contradiction;
    destruct p as [sp | sp | | sp mp ep]; cbn [has_sign] in Hp; subst;
    try reflexivity; try exact I.
  unfold mul, SFmul. apply round_sign.
Qed.

Lemma of_Z_negative_sign (z : Z) : z < 0 -> has_sign true (of_Z z).
Proof.
  intro Hz. destruct z as [| p | p]; try lia.
  unfold of_Z, binary_normalize, binary_round.
  destruct (shl_align _ _ _). apply round_sign.
Qed.

(** [Math.round] keeps the sign. *)
Lemma Math_round_sign (s : bool) (x : Number) :
  has_sign s x -> has_sign s (Math_round x).
Proof.
  intro Hx. destruct x as [s' | s' | | s' m e]; try exact Hx.
  cbn [has_sign] in Hx. subst s'.
  unfold Math_round. destruct (0 <=? e) eqn:He; [reflexivity |].
  apply Z.leb_gt in He.
  assert (Hk : 0 < 2 ^ (- e + 1)) by (apply Z.pow_pos_nonneg; lia).
  assert (Hk' : 0 < 2 ^ (- e)) by (apply Z.pow_pos_nonneg; lia).
  assert (Hdouble : 2 ^ (- e + 1) = 2 * 2 ^ (- e)) by (rewrite Z.pow_add_r by lia; lia).
  destruct ((2 * (if s then Z.neg m else Z.pos m) + 2 ^ (- e)) / 2 ^ (- e + 1) =? 0) eqn:Hr;
    [reflexivity |].
  apply Z.eqb_neq in Hr.
  destruct s.
  - apply of_Z_negative_sign.
    assert ((2 * Z.neg m + 2 ^ (- e)) / 2 ^ (- e + 1) < 1); [| lia].
    apply Z.div_lt_upper_bound; lia.
  - apply of_Z_sign. apply Z.div_pos; lia.
Qed.

Lemma not_lt_opposite (x a : Number) :
  has_sign false x -> has_sign true a -> lt x a = false.
Proof.
  intros Hx Ha.
  destruct x as [s | s | | s m e]; cbn [has_sign] in Hx; subst;
    destruct a as [sa | sa | | sa ma ea]; cbn [has_sign] in Ha; subst; reflexivity.
Qed.

(** No negative Number is an unsigned 64-bit integer, the negative zero
    apart, which converts to the integer 0. *)
Lemma negative_not_u64 (x : Number) :
  has_sign true x -> x <> S754_zero true -> is_u64 x = false.
Proof.
  intros Hs Hnz.
  destruct x as [s | s | | s m e]; cbn [has_sign] in Hs; try subst s;
    try reflexivity; [congruence |].
  unfold is_u64, to_Z.
  destruct (0 <=? e) eqn:He.
  - apply Z.leb_le in He.
    assert (0 < 2 ^ e) by (apply Z.pow_pos_nonneg; lia).
    replace (0 <=? -1 * (Z.pos m * 2 ^ e)) with false; [reflexivity |].
    symmetry. apply Z.leb_gt. nia.
  - apply Z.leb_gt in He.
    assert (Hk : 0 < 2 ^ (- e)) by (apply Z.pow_pos_nonneg; lia).
    destruct (Z.pos m mod 2 ^ (- e) =? 0) eqn:Hmod; [| reflexivity].
    apply Z.eqb_eq in Hmod.
    assert (Hq : 0 < Z.pos m / 2 ^ (- e)).
    { pose proof (Z.div_mod (Z.pos m) (2 ^ (- e)) ltac:(lia)) as Hdm.
      rewrite Hmod in Hdm.
      destruct (Z.pos m / 2 ^ (- e)) eqn:Eq; nia. }
    replace (0 <=? -1 * (Z.pos m / 2 ^ (- e))) with false; [reflexivity |].
    symmetry. apply Z.leb_gt. lia.
Qed.

Lemma shr_1_half (mrs : shr_record) :
  0 <= shr_m mrs -> shr_m (shr_1 mrs) = shr_m mrs / 2.
Proof.
  destruct mrs as [m r s]. cbn [shr_m]. intro Hm.
  destruct m as [| [p | p |] | p]; try lia; cbn [shr_1 shr_m].
  - reflexivity.
  - rewrite Pos2Z.inj_xI. apply Z.div_unique with (r := 1); lia.
  - rewrite Pos2Z.inj_xO. apply Z.div_unique with (r := 0); lia.
  - reflexivity.
Qed.

Lemma shr_iter_half (k : nat) (mrs : shr_record) :
  0 <= shr_m mrs ->
  shr_m (Nat.iter k shr_1 mrs) = shr_m mrs / 2 ^ Z.of_nat k.
Proof.
  intro Hm. induction k.
  - simpl. rewrite Z.div_1_r. reflexivity.
  - rewrite Nat.iter_succ.
    assert (Hk : 0 < 2 ^ Z.of_nat k) by (apply Z.pow_pos_nonneg; lia).
    rewrite shr_1_half by (rewrite IHk; apply Z.div_pos; lia).
    rewrite IHk, Z.div_div by lia.
    rewrite Nat2Z.inj_succ, Z.pow_succ_r by lia.
    f_equal. lia.
Qed.

Lemma shr_m_of_loc (m : Z) (l : location) : shr_m (shr_record_of_loc m l) = m.
Proof. destruct l as [| []]; reflexivity. Qed.

(** Shifting to the exponent of the format keeps a mantissa positive, as
    long as the value is not below the smallest subnormal. *)
Lemma shr_fexp_positive (m e : Z) (l : location) :
  0 < m -> -1073 <= Zdigits2 m + e ->
  0 < shr_m (fst (shr_fexp prec emax m e l))
  /\ -1074 <= snd (shr_fexp prec emax m e l).
Proof.
  intros Hm Hd.
  rewrite Zdigits2_log2 in Hd by lia.
  unfold shr_fexp, shr. rewrite Zdigits2_log2 by lia.
  unfold fexp, emin, prec, emax.
  destruct (Z.max (Z.log2 m + 1 + e - 53) (3 - 1024 - 53) - e) as [| k | k] eqn:Hk;
    cbn [fst snd]; rewrite ?shr_m_of_loc; try (split; lia).
  rewrite iter_pos_nat, shr_iter_half by (rewrite shr_m_of_loc; lia).
  rewrite shr_m_of_loc, positive_nat_Z.
  split; [| lia].
  pose proof (Z.log2_spec m Hm) as [Hlo _].
  pose proof (Z.log2_nonneg m) as Hnn.
  assert (Hle : Z.pos k <= Z.log2 m) by lia.
  assert (Hpow : 2 ^ Z.pos k <= 2 ^ Z.log2 m) by (apply Z.pow_le_mono_r; lia).
  assert (Hkpos : 0 < 2 ^ Z.pos k) by (apply Z.pow_pos_nonneg; lia).
  apply Z.div_str_pos. lia.
Qed.

Lemma round_nearest_even_ge (m : Z) (l : location) : m <= round_nearest_even m l.
Proof.
  destruct l as [| []]; cbn [round_nearest_even]; try lia.
  destruct (Z.even m); lia.
Qed.

(** Rounding does not take a value to zero unless it is below the smallest
    subnormal. *)
Lemma round_not_zero (s : bool) (m e : Z) (l : location) :
  0 < m -> -1073 <= Zdigits2 m + e ->
  forall s', binary_round_aux prec emax s m e l <> S754_zero s'.
Proof.
  intros Hm Hd s'.
  unfold binary_round_aux.
  pose proof (shr_fexp_positive m e l Hm Hd) as [H1 He1].
  destruct (shr_fexp prec emax m e l) as [mrs1 e1]. cbn [fst snd] in H1, He1.
  pose proof (round_nearest_even_ge (shr_m mrs1) (loc_of_shr_record mrs1)) as Hge.
  set (m1 := round_nearest_even (shr_m mrs1) (loc_of_shr_record mrs1)) in *.
  assert (Hm1 : 0 < m1) by lia.
  assert (Hd1 : -1073 <= Zdigits2 m1 + e1).
  { rewrite Zdigits2_log2 by lia. pose proof (Z.log2_nonneg m1). lia. }
  pose proof (shr_fexp_positive m1 e1 loc_Exact Hm1 Hd1) as [H2 _].
  destruct (shr_fexp prec emax m1 e1 loc_Exact) as [mrs2 e2]. cbn [fst] in H2.
  destruct (shr_m mrs2); try lia.
  destruct (e2 <=? emax - prec); discriminate.
Qed.

Lemma valid_exponent (s : bool) (m : positive) (e : Z) :
  is_Number (S754_finite s m e) = true -> -1074 <= e.
Proof.
  unfold is_Number, valid_binary, bounded, canonical_mantissa, fexp, emin, prec, emax.
  intro H. apply andb_prop in H as [H _]. apply Z.eqb_eq in H. lia.
Qed.

(** The lamports of a non-zero amount are not zero: the product with
    [1000000000] does not underflow. *)
Lemma mul_1e9_not_zero (x : Number) (s' : bool) :
  is_Number x = true -> is_negative x ->
  mul x (of_Z 1000000000) <> S754_zero s'.
Proof.
  intros Hv Hneg.
  destruct x as [s | [|] | | [|] m e]; try contradiction.
  - change (of_Z 1000000000) with (S754_finite false 8388608000000000 (-23)).
    cbn [mul SFmul]. discriminate.
  - apply valid_exponent in Hv.
    change (of_Z 1000000000) with (S754_finite false 8388608000000000 (-23)).
    cbn [mul SFmul].
    apply round_not_zero; [lia |].
    rewrite Zdigits2_log2 by lia.
    assert (Z.log2 8388608000000000 <= Z.log2 (Z.pos (m * 8388608000000000))).
    { apply Z.log2_le_mono. lia. }
    change (Z.log2 8388608000000000) with 52 in H. lia.
Qed.

Lemma div_exact (n q : Z) :
  0 < n -> 0 < q -> n * q < 2 ^ 53 ->
  div (of_Z (n * q)) (of_Z q) = of_Z n.
Proof.
  intros Hn Hq Hnq.
  assert (Hn53 : n < 2 ^ 53) by nia.
  assert (Hq53 : q < 2 ^ 53) by nia.
  assert (Hpos : 0 < n * q) by nia.
  rewrite (of_Z_canonical (n * q)), (of_Z_canonical q), (of_Z_canonical n) by lia.
  pose proof (Z.log2_spec n Hn) as Hsn.
  pose proof (Z.log2_spec q Hq) as Hsq.
  pose proof (Z.log2_spec (n * q) Hpos) as Hsa.
  pose proof (Z.log2_mul_below n q Hn Hq) as Hbelow.
  pose proof (Z.log2_mul_above n q ltac:(lia) ltac:(lia)) as Habove.
  assert (HLa : Z.log2 (n * q) < 53) by (apply Z.log2_lt_pow2; lia).
  pose proof (Z.log2_nonneg n) as Hnn.
  pose proof (Z.log2_nonneg q) as Hnq0.
  set (Ln := Z.log2 n) in *. set (Lq := Z.log2 q) in *. set (La := Z.log2 (n * q)) in *.
  assert (Pq : 0 < 2 ^ (52 - Lq)) by (apply Z.pow_pos_nonneg; lia).
  assert (Pa : 0 < 2 ^ (52 - La)) by (apply Z.pow_pos_nonneg; lia).
  assert (Pn : 0 < 2 ^ (52 - Ln)) by (apply Z.pow_pos_nonneg; lia).
  assert (Mq : 2 ^ 52 <= q * 2 ^ (52 - Lq) < 2 ^ 53).
  { replace (2 ^ 52) with (2 ^ Lq * 2 ^ (52 - Lq))
      by (rewrite <- Z.pow_add_r by lia; f_equal; lia).
    replace (2 ^ 53) with (2 ^ Z.succ Lq * 2 ^ (52 - Lq))
      by (rewrite <- Z.pow_add_r by lia; f_equal; lia).
    split; [apply Z.mul_le_mono_nonneg_r | apply Z.mul_lt_mono_pos_r]; lia. }
  assert (Ma : 2 ^ 52 <= n * q * 2 ^ (52 - La) < 2 ^ 53).
  { replace (2 ^ 52) with (2 ^ La * 2 ^ (52 - La))
      by (rewrite <- Z.pow_add_r by lia; f_equal; lia).
    replace (2 ^ 53) with (2 ^ Z.succ La * 2 ^ (52 - La))
      by (rewrite <- Z.pow_add_r by lia; f_equal; lia).
    split; [apply Z.mul_le_mono_nonneg_r | apply Z.mul_lt_mono_pos_r]; lia. }
  assert (Mn : 2 ^ 52 <= n * 2 ^ (52 - Ln) < 2 ^ 53).
  { replace (2 ^ 52) with (2 ^ Ln * 2 ^ (52 - Ln))
      by (rewrite <- Z.pow_add_r by lia; f_equal; lia).
    replace (2 ^ 53) with (2 ^ Z.succ Ln * 2 ^ (52 - Ln))
      by (rewrite <- Z.pow_add_r by lia; f_equal; lia).
    split; [apply Z.mul_le_mono_nonneg_r | apply Z.mul_lt_mono_pos_r]; lia. }
  unfold div, SFdiv. cbn [xorb].
  unfold SFdiv_core_binary.
  rewrite !Z2Pos.id by lia.
  rewrite !Zdigits2_log2 by lia.
  rewrite (Z.log2_unique (n * q * 2 ^ (52 - La)) 52) by lia.
  rewrite (Z.log2_unique (q * 2 ^ (52 - Lq)) 52) by lia.
  unfold fexp, emin, prec, emax.
  replace (Z.min (Z.max (52 + 1 + (La - 52) - (52 + 1 + (Lq - 52)) - 53) (3 - 1024 - 53))
                 (La - 52 - (Lq - 52)))
    with (La - Lq - 53) by lia.
  replace (La - 52 - (Lq - 52) - (La - Lq - 53)) with 53 by lia.
  rewrite Z.shiftl_mul_pow2 by lia.
  set (t := 1 + Lq + Ln - La).
  assert (Hquot : n * q * 2 ^ (52 - La) * 2 ^ 53
                  = (n * 2 ^ (52 - Ln) * 2 ^ t) * (q * 2 ^ (52 - Lq))).
  { transitivity (n * q * (2 ^ (52 - La) * 2 ^ 53)); [ring |].
    transitivity (n * q * (2 ^ (52 - Ln) * 2 ^ t * 2 ^ (52 - Lq))); [| ring].
    f_equal. rewrite <- !Z.pow_add_r by (unfold t; lia). f_equal. unfold t. lia. }
  rewrite Hquot.
  pose proof (Z.div_mul (n * 2 ^ (52 - Ln) * 2 ^ t) (q * 2 ^ (52 - Lq)) ltac:(lia)) as Hdiv.
  pose proof (Z.mod_mul (n * 2 ^ (52 - Ln) * 2 ^ t) (q * 2 ^ (52 - Lq)) ltac:(lia)) as Hmod.
  unfold Z.div in Hdiv. unfold Z.modulo in Hmod.
  destruct (Z.div_eucl (n * 2 ^ (52 - Ln) * 2 ^ t * (q * 2 ^ (52 - Lq))) (q * 2 ^ (52 - Lq)))
    as [Q R].
  subst Q R.
  replace (new_location (q * 2 ^ (52 - Lq)) 0) with loc_Exact
    by (unfold new_location, new_location_even, new_location_odd;
        destruct (Z.even (q * 2 ^ (52 - Lq))); reflexivity).
  replace (La - Lq - 53) with ((Ln - 52) - t) by (unfold t; lia).
  apply round_exact; [lia | unfold t; lia | lia].
Qed.

(** ** Balance query *)

(** X7: for an account holding [n] whole SOL, that is [n * 10^9] lamports
    with [n * 10^9 < 2^53], [getWalletBalance] returns exactly [n], and
    leaves the process as it was. *)
Theorem getWalletBalance_whole_SOL :
  forall (sdk : Sdk) (config : Config) (publicKeyStr : string) (st : Process)
         (connection : Connection) (publicKey : PublicKey) (n : Z),
    new_Connection sdk (SolanaNetwork config) = Ok connection ->
    new_PublicKey sdk publicKeyStr = Ok publicKey ->
    getBalance connection publicKey = Ok (of_Z (n * 1000000000)) ->
    0 <= n -> n * 1000000000 < 2 ^ 53 ->
    WalletFun.getWalletBalance sdk config publicKeyStr st = (Ok (of_Z n), st).
Proof.
  intros sdk config addr st connection publicKey n Hc Hp Hb Hn Hsafe.
  unfold WalletFun.getWalletBalance. unfold_effects.
  answered Hc. answered Hp. answered Hb.
  destruct (Z.eq_dec n 0) as [-> | Hnz]; [reflexivity |].
  rewrite div_exact by lia. reflexivity.
Qed.

(** Three SOL. *)
Lemma getWalletBalance_whole_SOL_witness :
  WalletFun.getWalletBalance (Fixture.sdk (Fixture.node 3000000000 6 []))
    (Fixture.config 6 (of_Z 1000000)) Fixture.sender_address initial
  = (Ok (of_Z 3), initial).
Proof.
  apply (getWalletBalance_whole_SOL (Fixture.sdk (Fixture.node 3000000000 6 []))
           (Fixture.config 6 (of_Z 1000000)) Fixture.sender_address initial
           (Fixture.node 3000000000 6 []) (Pubkey Fixture.sender_address) 3);
    try reflexivity; lia.
Defined.

(** X8: [getWalletBalance] only reads: the process is never changed; a
    returned value is the node's lamport balance of the parsed address
    divided by [10^9]; a thrown error is the one of the connection, of the
    address parser or of the node, rethrown unchanged. *)
Theorem getWalletBalance_reads_only :
  forall (sdk : Sdk) (config : Config) (publicKeyStr : string) (st : Process),
    let out := WalletFun.getWalletBalance sdk config publicKeyStr st in
    snd out = st
    /\ (forall balanceInSOL,
          fst out = Ok balanceInSOL ->
          exists connection publicKey lamports,
            new_Connection sdk (SolanaNetwork config) = Ok connection
            /\ new_PublicKey sdk publicKeyStr = Ok publicKey
            /\ getBalance connection publicKey = Ok lamports
            /\ balanceInSOL = div lamports (of_Z 1000000000))
    /\ (forall error,
          fst out = Throw error ->
          new_Connection sdk (SolanaNetwork config) = Throw error
          \/ new_PublicKey sdk publicKeyStr = Throw error
          \/ exists connection publicKey,
               new_Connection sdk (SolanaNetwork config) = Ok connection
               /\ new_PublicKey sdk publicKeyStr = Ok publicKey
               /\ getBalance connection publicKey = Throw error).
Proof.
  intros sdk config addr st out. subst out.
  unfold WalletFun.getWalletBalance. unfold_effects.
  repeat next_case; (split; [reflexivity |]); split;
    intros x Hx; try discriminate Hx; injection Hx as <-.
  - do 3 eexists. repeat split; eassumption.
  - right. right. do 2 eexists. repeat split; eassumption.
  - right. left. reflexivity.
  - left. reflexivity.
Qed.

(** ** Native transfer, continued *)

(** With every query answered, the check passed and the product encoded
    by the transfer builder, the transaction is submitted and the result
    is the node's verdict on it. *)
Lemma transferSOL_runs :
  forall (sdk : Sdk) (config : Config)
         (senderPrivateKeyHex recipientPublicKeyStr : string) (amountSOL : Number)
         (st : Process) (connection : Connection) (senderKeypair : Keypair)
         (balance : Number) (recipientPublicKey : PublicKey) (blockhash : Blockhash),
    new_Connection sdk (SolanaNetwork config) = Ok connection ->
    Keypair_fromSecretKey sdk (Buffer.from_hex senderPrivateKeyHex) = Ok senderKeypair ->
    getBalance connection (publicKey senderKeypair) = Ok balance ->
    lt (div balance (of_Z 1000000000)) amountSOL = false ->
    new_PublicKey sdk recipientPublicKeyStr = Ok recipientPublicKey ->
    is_u64 (mul amountSOL (of_Z 1000000000)) = true ->
    getLatestBlockhash connection = Ok blockhash ->
    let tx := transfer_of senderKeypair recipientPublicKey
                (mul amountSOL (of_Z 1000000000)) blockhash in
    WalletFun.transferSOL sdk config senderPrivateKeyHex recipientPublicKeyStr amountSOL st
    = (confirm connection tx [senderKeypair] None,
       mkProcess tx (submitted st ++ [Build_Submission tx [senderKeypair] None])).
Proof.
  intros sdk config key rcpt amountSOL st connection senderKeypair balance
         recipientPublicKey blockhash Hc Hk Hb Hlt Hr Hu Hbh tx.
  unfold WalletFun.transferSOL. unfold_effects.
  answered Hc. answered Hk. answered Hb. rewrite Hlt. cbv beta iota.
  answered Hr. rewrite Hu. cbv beta iota.
  cbn [fst snd transaction submitted instructions recentBlockhash feePayer].
  answered Hbh.
  unfold tx, transfer_of. cbn [instructions empty_Transaction app].
  match goal with
  | |- context [confirm ?c ?t ?s ?o] => destruct (confirm c t s o)
  end; reflexivity.
Qed.

(** X9: every call of [transferSOL] ends in one of two ways.  Either it
    throws with nothing submitted; or it has submitted exactly one
    transaction, the single transfer of [amountSOL * 10^9] from the sender,
    with the node's latest blockhash, the sender as fee payer and as only
    signer, and its result, signature or error, is the node's verdict on
    that transaction. *)
Theorem transferSOL_outcome :
  forall (sdk : Sdk) (config : Config)
         (senderPrivateKeyHex recipientPublicKeyStr : string) (amountSOL : Number)
         (st : Process),
    let out := WalletFun.transferSOL sdk config senderPrivateKeyHex
                 recipientPublicKeyStr amountSOL st in
    (submitted (snd out) = submitted st /\ exists error, fst out = Throw error)
    \/ exists connection senderKeypair recipientPublicKey blockhash,
         new_Connection sdk (SolanaNetwork config) = Ok connection
         /\ Keypair_fromSecretKey sdk (Buffer.from_hex senderPrivateKeyHex) = Ok senderKeypair
         /\ new_PublicKey sdk recipientPublicKeyStr = Ok recipientPublicKey
         /\ getLatestBlockhash connection = Ok blockhash
         /\ let tx := transfer_of senderKeypair recipientPublicKey
                        (mul amountSOL (of_Z 1000000000)) blockhash in
            submitted (snd out) = submitted st ++ [Build_Submission tx [senderKeypair] None]
            /\ fst out = confirm connection tx [senderKeypair] None.
Proof.
  intros sdk config key rcpt amountSOL st out. subst out.
  unfold WalletFun.transferSOL. unfold_effects.
  repeat next_case;
    try (left; split; [reflexivity | eexists; reflexivity]).
  all: right; do 4 eexists;
    split; [reflexivity |]; split; [reflexivity |]; split; [reflexivity |];
    split; [eassumption |]; split; [reflexivity | symmetry; eassumption].
Qed.

(** X10: the pre-flight check of [transferSOL] refuses no negative amount
    and not [NaN]: with a balance of any non-negative number of lamports
    the test of the check is false.  The product [amountSOL * 10^9], which
    is negative or [NaN], then reaches the transfer builder, which cannot
    encode it, and [transferSOL] throws the builder's error: no transaction
    is built and none is submitted. *)
Theorem transferSOL_negative_amount_not_refused :
  forall (sdk : Sdk) (config : Config)
         (senderPrivateKeyHex recipientPublicKeyStr : string) (amountSOL : Number)
         (st : Process) (connection : Connection) (senderKeypair : Keypair)
         (lamports : Z) (recipientPublicKey : PublicKey),
    new_Connection sdk (SolanaNetwork config) = Ok connection ->
    Keypair_fromSecretKey sdk (Buffer.from_hex senderPrivateKeyHex) = Ok senderKeypair ->
    getBalance connection (publicKey senderKeypair) = Ok (of_Z lamports) ->
    0 <= lamports ->
    is_Number amountSOL = true ->
    is_negative amountSOL \/ amountSOL = NaN ->
    new_PublicKey sdk recipientPublicKeyStr = Ok recipientPublicKey ->
    lt (div (of_Z lamports) (of_Z 1000000000)) amountSOL = false
    /\ WalletFun.transferSOL sdk config senderPrivateKeyHex recipientPublicKeyStr
         amountSOL st
       = (Throw (encoding_error sdk "SystemProgram.transfer"
                   (mul amountSOL (of_Z 1000000000))), st).
Proof.
  intros sdk config key rcpt amountSOL st connection senderKeypair lamports
         recipientPublicKey Hc Hk Hb Hpos Hnum Hneg Hr.
  assert (Hlt : lt (div (of_Z lamports) (of_Z 1000000000)) amountSOL = false).
  { apply not_lt_negative; [| exact Hneg].
    apply div_by_positive_sign. apply of_Z_sign. exact Hpos. }
  split; [exact Hlt |].
  apply (transferSOL_builder_throws sdk config key rcpt amountSOL connection senderKeypair
           recipientPublicKey (of_Z lamports) st Hc Hk Hb Hlt Hr).
  destruct Hneg as [Hneg | ->]; [| reflexivity].
  apply negative_not_u64; [| apply mul_1e9_not_zero; assumption].
  apply mul_negative_sign; [exact Hneg |]. apply of_Z_sign. lia.
Qed.

(** A payer holding 0.001 SOL asks to send -1 SOL. *)
Lemma transferSOL_negative_amount_not_refused_witness :
  let sdk := Fixture.sdk (Fixture.node 1000000 6 []) in
  lt (div (of_Z 1000000) (of_Z 1000000000)) (of_Z (-1)) = false
  /\ WalletFun.transferSOL sdk (Fixture.config 6 (of_Z 1000000))
       Fixture.sender_key_hex Fixture.recipient_address (of_Z (-1)) initial
     = (Throw (encoding_error sdk "SystemProgram.transfer"
                 (mul (of_Z (-1)) (of_Z 1000000000))), initial).
Proof.
  apply (transferSOL_negative_amount_not_refused
           (Fixture.sdk (Fixture.node 1000000 6 [])) (Fixture.config 6 (of_Z 1000000))
           Fixture.sender_key_hex Fixture.recipient_address (of_Z (-1)) initial
           (Fixture.node 1000000 6 []) Fixture.sender 1000000
           (Pubkey Fixture.recipient_address));
    try reflexivity; [lia | left; exact I].
Defined.

(** X11: the pre-flight check of [transferSOL] keeps no reserve for the
    fee: a payer holding exactly [n] SOL who sends [n] SOL passes it, and
    the transfer of the whole balance, [n * 10^9] lamports, is submitted. *)
Theorem transferSOL_whole_balance_passes :
  forall (sdk : Sdk) (config : Config)
         (senderPrivateKeyHex recipientPublicKeyStr : string)
         (st : Process) (connection : Connection) (senderKeypair : Keypair)
         (n : Z) (recipientPublicKey : PublicKey) (blockhash : Blockhash),
    new_Connection sdk (SolanaNetwork config) = Ok connection ->
    Keypair_fromSecretKey sdk (Buffer.from_hex senderPrivateKeyHex) = Ok senderKeypair ->
    getBalance connection (publicKey senderKeypair) = Ok (of_Z (n * 1000000000)) ->
    0 < n -> n * 1000000000 < 2 ^ 53 ->
    new_PublicKey sdk recipientPublicKeyStr = Ok recipientPublicKey ->
    getLatestBlockhash connection = Ok blockhash ->
    let tx := transfer_of senderKeypair recipientPublicKey
                (of_Z (n * 1000000000)) blockhash in
    submitted (snd (WalletFun.transferSOL sdk config senderPrivateKeyHex
                      recipientPublicKeyStr (of_Z n) st))
    = submitted st ++ [Build_Submission tx [senderKeypair] None].
Proof.
  intros sdk config key rcpt st connection senderKeypair n recipientPublicKey blockhash
         Hc Hk Hb Hn Hsafe Hr Hbh tx.
  rewrite (transferSOL_runs sdk config key rcpt (of_Z n) st connection senderKeypair
             (of_Z (n * 1000000000)) recipientPublicKey blockhash Hc Hk Hb); try assumption.
  - cbn [snd submitted]. unfold tx. rewrite mul_of_Z_exact by lia. reflexivity.
  - rewrite div_exact by lia.
    rewrite (of_Z_canonical n) by lia.
    unfold lt, SFltb, SFcompare. rewrite Z.compare_refl.
    rewrite Pos.compare_cont_refl. reflexivity.
  - rewrite mul_of_Z_exact by lia.
    apply is_u64_of_Z; [lia | apply safe_integer_representable; lia].
Qed.

(** A payer holding 2 SOL sends 2 SOL. *)
Lemma transferSOL_whole_balance_passes_witness :
  exists sub,
    submitted (snd (WalletFun.transferSOL (Fixture.sdk (Fixture.node 2000000000 6 []))
                      (Fixture.config 6 (of_Z 1000000))
                      Fixture.sender_key_hex Fixture.recipient_address (of_Z 2) initial))
    = [sub]
    /\ instructions (sub_transaction sub)
       = [SystemTransfer (publicKey Fixture.sender) (publicKey Fixture.recipient)
            (of_Z 2000000000)].
Proof.
  eexists. split.
  - apply (transferSOL_whole_balance_passes
             (Fixture.sdk (Fixture.node 2000000000 6 [])) (Fixture.config 6 (of_Z 1000000))
             Fixture.sender_key_hex Fixture.recipient_address initial
             (Fixture.node 2000000000 6 []) Fixture.sender 2
             (Pubkey Fixture.recipient_address)
             "EkSnNWid2cvwEVnVx9aBqawnmiCNiDgp3gUdkDPTKN1N"%string);
      try reflexivity; lia.
  - reflexivity.
Defined.

(** ** Token transfer, continued *)

(** The queries [transferToken] makes before its pre-flight check, all
    answered. *)
Section TokenTransfer.

Variables (sdk : Sdk) (config : Config).
Variables (senderPrivateKeyHex recipientPublicKeyStr mintAddressStr : string).
Variable amount : Number.

Variables (connection : Connection) (senderKeypair : Keypair).
Variables (recipientPubkey mintPubkey sourceAta destAta : PublicKey).
Variables (sourceInfo destInfo : option AccountInfo) (mintInfo : MintInfo).

Hypothesis Hc : new_Connection sdk (SolanaNetwork config) = Ok connection.
Hypothesis Hk :
  Keypair_fromSecretKey sdk (Buffer.from_hex senderPrivateKeyHex) = Ok senderKeypair.
Hypothesis Hr : new_PublicKey sdk recipientPublicKeyStr = Ok recipientPubkey.
Hypothesis Hm : new_PublicKey sdk mintAddressStr = Ok mintPubkey.
Hypothesis Hs :
  getAssociatedTokenAddress sdk mintPubkey (publicKey senderKeypair) = Ok sourceAta.
Hypothesis Hd : getAssociatedTokenAddress sdk mintPubkey recipientPubkey = Ok destAta.
Hypothesis Hsi : getAccountInfo connection sourceAta = Ok sourceInfo.
Hypothesis Hdi : getAccountInfo connection destAta = Ok destInfo.
Hypothesis Hmi : getMint connection mintPubkey = Ok mintInfo.

(** With every query answered, the check passed and the amount and the
    decimals encoded by the builder of the checked transfer, the transaction
    is submitted and the result is the node's verdict on it. *)
Lemma transferToken_runs :
  forall (st : Process) (blockhash : Blockhash),
    lt (balance_seen connection sourceAta) (smallest_units amount (mint_decimals mintInfo)) = false ->
    is_u64 (smallest_units amount (mint_decimals mintInfo)) = true ->
    is_u8 (mint_decimals mintInfo) = true ->
    getLatestBlockhash connection = Ok blockhash ->
    let tx := token_transfer_of senderKeypair recipientPubkey mintPubkey sourceAta
                destAta sourceInfo destInfo (smallest_units amount (mint_decimals mintInfo)) (mint_decimals mintInfo) blockhash in
    WalletFun.transferToken sdk config senderPrivateKeyHex recipientPublicKeyStr
      mintAddressStr amount st
    = (confirm connection tx [senderKeypair] None,
       mkProcess tx (submitted st ++ [Build_Submission tx [senderKeypair] None])).
Proof.
  intros st blockhash Hlt Hu64 Hu8 Hbh tx.
  unfold WalletFun.transferToken. unfold_effects.
  answered Hc. answered Hk. answered Hr. answered Hm. answered Hs. answered Hd.
  answered Hsi. answered Hdi.
  unfold balance_seen in Hlt. unfold smallest_units in *.
  destruct sourceInfo, destInfo; cbv beta iota;
    cbn [fst snd transaction submitted instructions recentBlockhash feePayer];
    answered Hmi; rewrite Hlt; cbv beta iota; rewrite Hu64, Hu8; cbv beta iota;
    cbn [fst snd transaction submitted instructions recentBlockhash feePayer];
    answered Hbh;
    unfold tx, token_transfer_of, expected_creations;
    cbn [instructions empty_Transaction app];
    match goal with
    | |- context [match ?c with Ok _ => _ | Throw _ => _ end] => destruct c eqn:E
    end; cbv beta iota; first [reflexivity | rewrite <- E; reflexivity].
Qed.

(** Past the check, an amount in smallest units that the builder of the
    checked transfer cannot encode makes [transferToken] throw the
    builder's error: the transaction holds the creations added so far and
    nothing is submitted. *)
Lemma transferToken_builder_throws :
  forall (st : Process),
    lt (balance_seen connection sourceAta) (smallest_units amount (mint_decimals mintInfo)) = false ->
    is_u64 (smallest_units amount (mint_decimals mintInfo)) = false ->
    WalletFun.transferToken sdk config senderPrivateKeyHex recipientPublicKeyStr
      mintAddressStr amount st
    = (Throw (encoding_error sdk "createTransferCheckedInstruction"
                (smallest_units amount (mint_decimals mintInfo))),
       mkProcess
         (mkTransaction
            (expected_creations (publicKey senderKeypair) sourceAta destAta
               recipientPubkey mintPubkey sourceInfo destInfo)
            None None)
         (submitted st)).
Proof.
  intros st Hlt Hu64.
  unfold WalletFun.transferToken. unfold_effects.
  answered Hc. answered Hk. answered Hr. answered Hm. answered Hs. answered Hd.
  answered Hsi. answered Hdi.
  unfold balance_seen in Hlt. unfold smallest_units in *.
  destruct sourceInfo, destInfo; cbv beta iota;
    cbn [fst snd transaction submitted instructions recentBlockhash feePayer];
    answered Hmi; rewrite Hlt; cbv beta iota; rewrite Hu64; reflexivity.
Qed.

(** X12: when every query is answered, the source balance the check sees
    is not less than the amount in smallest units, and the builder of the
    checked transfer can encode that amount (an integer from 0 to 2^64 - 1)
    and the decimals (a byte), [transferToken] submits exactly this
    transaction: the creation of the sender's associated account if the
    node reports it absent, then the creation of the recipient's if absent,
    both paid by the sender, then the checked transfer; the sender is fee
    payer and only signer, and the result is the node's verdict. *)
Theorem transferToken_submits_when_covered :
  forall (st : Process) (blockhash : Blockhash),
    lt (balance_seen connection sourceAta) (smallest_units amount (mint_decimals mintInfo)) = false ->
    is_u64 (smallest_units amount (mint_decimals mintInfo)) = true ->
    is_u8 (mint_decimals mintInfo) = true ->
    getLatestBlockhash connection = Ok blockhash ->
    let tx := token_transfer_of senderKeypair recipientPubkey mintPubkey sourceAta
                destAta sourceInfo destInfo (smallest_units amount (mint_decimals mintInfo)) (mint_decimals mintInfo) blockhash in
    let out := WalletFun.transferToken sdk config senderPrivateKeyHex
                 recipientPublicKeyStr mintAddressStr amount st in
    submitted (snd out) = submitted st ++ [Build_Submission tx [senderKeypair] None]
    /\ fst out = confirm connection tx [senderKeypair] None.
Proof.
  intros st blockhash Hlt Hu64 Hu8 Hbh tx out. subst out.
  rewrite (transferToken_runs st blockhash Hlt Hu64 Hu8 Hbh). split; reflexivity.
Qed.

(** X13: the pre-flight check of [transferToken] refuses no negative
    amount and not [NaN]: whatever non-negative balance the check sees, its
    test is false.  The rounded amount then reaches the builder of the
    checked transfer, which cannot encode it unless it is the negative zero
    (an amount that rounds to no unit), and [transferToken] throws the
    builder's error: nothing is submitted. *)
Theorem transferToken_negative_amount_not_refused :
  forall (st : Process),
    let units := smallest_units amount (mint_decimals mintInfo) in
    let out := WalletFun.transferToken sdk config senderPrivateKeyHex
                 recipientPublicKeyStr mintAddressStr amount st in
    has_sign false (balance_seen connection sourceAta) ->
    is_negative amount \/ amount = NaN ->
    units <> S754_zero true ->
    lt (balance_seen connection sourceAta) units = false
    /\ fst out = Throw (encoding_error sdk "createTransferCheckedInstruction" units)
    /\ submitted (snd out) = submitted st.
Proof.
  intros st units out Hhave Hneg Hnz.
  assert (Hsign : has_sign true units).
  { destruct Hneg as [Hneg | ->]; [| exact I].
    apply Math_round_sign. apply mul_negative_sign; [exact Hneg |].
    apply of_Z_sign. apply Z.pow_nonneg. lia. }
  assert (Hlt : lt (balance_seen connection sourceAta) units = false).
  { destruct Hneg as [Hneg | ->].
    - apply not_lt_opposite; assumption.
    - unfold units, smallest_units. cbn [mul SFmul Math_round].
      destruct (balance_seen connection sourceAta); reflexivity. }
  split; [exact Hlt |].
  subst out.
  rewrite (transferToken_builder_throws st Hlt (negative_not_u64 units Hsign Hnz)).
  split; reflexivity.
Qed.

End TokenTransfer.

(** The sender holds 1,000,000 units, the recipient has no account. *)
Lemma transferToken_submits_when_covered_witness :
  let connection := Fixture.node 10000000000 6 [(Fixture.sender_ata, "1000000"%string)] in
  let out := WalletFun.transferToken (Fixture.sdk connection) (Fixture.config 6 (of_Z 1000000))
               Fixture.sender_key_hex Fixture.recipient_address Fixture.mint_address
               (decimal 5 3) initial in
  exists sub,
    submitted (snd out) = [sub]
    /\ instructions (sub_transaction sub)
       = [CreateAssociatedTokenAccount (publicKey Fixture.sender) Fixture.recipient_ata
            (publicKey Fixture.recipient) (Pubkey Fixture.mint_address)
            TOKEN_PROGRAM_ID ASSOCIATED_TOKEN_PROGRAM_ID;
          TransferChecked Fixture.sender_ata (Pubkey Fixture.mint_address)
            Fixture.recipient_ata (publicKey Fixture.sender) (of_Z 5000) 6 []
            TOKEN_PROGRAM_ID].
Proof.
  intros connection out.
  destruct (transferToken_submits_when_covered
              (Fixture.sdk connection) (Fixture.config 6 (of_Z 1000000))
              Fixture.sender_key_hex Fixture.recipient_address Fixture.mint_address
              (decimal 5 3) connection Fixture.sender
              (Pubkey Fixture.recipient_address) (Pubkey Fixture.mint_address)
              Fixture.sender_ata Fixture.recipient_ata
              (Some {| ai_lamports := of_Z 2039280; ai_owner := TOKEN_PROGRAM_ID |}) None
              {| mint_decimals := 6; mint_supply := 1000000000000 |}
              eq_refl eq_refl eq_refl eq_refl eq_refl eq_refl eq_refl eq_refl eq_refl
              initial "EkSnNWid2cvwEVnVx9aBqawnmiCNiDgp3gUdkDPTKN1N"%string)
    as [Hsub _];
    [vm_compute; reflexivity | vm_compute; reflexivity | reflexivity | reflexivity |].
  eexists. split; [exact Hsub |]. vm_compute. reflexivity.
Defined.

(** The sender holds nothing and asks to send -1 token. *)
Lemma transferToken_negative_amount_not_refused_witness :
  let connection := Fixture.node 10000000000 6 [(Fixture.sender_ata, "0"%string)] in
  let sdk := Fixture.sdk connection in
  let out := WalletFun.transferToken sdk (Fixture.config 6 (of_Z 1000000))
               Fixture.sender_key_hex Fixture.recipient_address Fixture.mint_address
               (of_Z (-1)) initial in
  lt (of_Z 0) (of_Z (-1000000)) = false
  /\ fst out = Throw (encoding_error sdk "createTransferCheckedInstruction"
                        (of_Z (-1000000)))
  /\ submitted (snd out) = [].
Proof.
  intros connection sdk out.
  exact (transferToken_negative_amount_not_refused
           sdk (Fixture.config 6 (of_Z 1000000))
           Fixture.sender_key_hex Fixture.recipient_address Fixture.mint_address
           (of_Z (-1)) connection Fixture.sender
           (Pubkey Fixture.recipient_address) (Pubkey Fixture.mint_address)
           Fixture.sender_ata Fixture.recipient_ata
           (Some {| ai_lamports := of_Z 2039280; ai_owner := TOKEN_PROGRAM_ID |}) None
           {| mint_decimals := 6; mint_supply := 1000000000000 |}
           eq_refl eq_refl eq_refl eq_refl eq_refl eq_refl eq_refl eq_refl eq_refl
           initial eq_refl (or_introl I)
           ltac:(vm_compute; discriminate)).
Defined.

(** X14: every call of [transferToken] ends in one of two ways.  Either
    it throws with nothing submitted; or every query was answered, the
    balance the check saw (0 after a failed lookup) was not less than the
    amount in smallest units, exactly one transaction was submitted, the
    one described above, and the result is the node's verdict on it.  So
    nothing is ever submitted that the balance seen does not cover. *)
Theorem transferToken_outcome :
  forall (sdk : Sdk) (config : Config)
         (senderPrivateKeyHex recipientPublicKeyStr mintAddressStr : string)
         (amount : Number) (st : Process),
    let out := WalletFun.transferToken sdk config senderPrivateKeyHex
                 recipientPublicKeyStr mintAddressStr amount st in
    (submitted (snd out) = submitted st /\ exists error, fst out = Throw error)
    \/ exists connection senderKeypair recipientPubkey mintPubkey sourceAta destAta
              sourceInfo destInfo mintInfo blockhash,
         new_Connection sdk (SolanaNetwork config) = Ok connection
         /\ Keypair_fromSecretKey sdk (Buffer.from_hex senderPrivateKeyHex) = Ok senderKeypair
         /\ new_PublicKey sdk recipientPublicKeyStr = Ok recipientPubkey
         /\ new_PublicKey sdk mintAddressStr = Ok mintPubkey
         /\ getAssociatedTokenAddress sdk mintPubkey (publicKey senderKeypair) = Ok sourceAta
         /\ getAssociatedTokenAddress sdk mintPubkey recipientPubkey = Ok destAta
         /\ getAccountInfo connection sourceAta = Ok sourceInfo
         /\ getAccountInfo connection destAta = Ok destInfo
         /\ getMint connection mintPubkey = Ok mintInfo
         /\ getLatestBlockhash connection = Ok blockhash
         /\ let units := smallest_units amount (mint_decimals mintInfo) in
            let tx := token_transfer_of senderKeypair recipientPubkey mintPubkey sourceAta
                        destAta sourceInfo destInfo units (mint_decimals mintInfo)
                        blockhash in
            lt (balance_seen connection sourceAta) units = false
            /\ submitted (snd out) = submitted st ++ [Build_Submission tx [senderKeypair] None]
            /\ fst out = confirm connection tx [senderKeypair] None.
Proof.
  intros sdk config key rcpt mintStr amount st out.
  destruct (new_Connection sdk (SolanaNetwork config)) as [connection |] eqn:Hc.
  2:{ left. subst out. unfold WalletFun.transferToken. unfold_effects. rewrite Hc.
      split; [reflexivity | eexists; reflexivity]. }
  destruct (Keypair_fromSecretKey sdk (Buffer.from_hex key)) as [senderKeypair |] eqn:Hk.
  2:{ left. subst out. unfold WalletFun.transferToken. unfold_effects. rewrite Hc, Hk.
      split; [reflexivity | eexists; reflexivity]. }
  destruct (new_PublicKey sdk rcpt) as [recipientPubkey |] eqn:Hr.
  2:{ left. subst out. unfold WalletFun.transferToken. unfold_effects.
      answered Hc. answered Hk. answered Hr.
      split; [reflexivity | eexists; reflexivity]. }
  destruct (new_PublicKey sdk mintStr) as [mintPubkey |] eqn:Hm.
  2:{ left. subst out. unfold WalletFun.transferToken. unfold_effects.
      answered Hc. answered Hk. answered Hr. answered Hm.
      split; [reflexivity | eexists; reflexivity]. }
  destruct (getAssociatedTokenAddress sdk mintPubkey (publicKey senderKeypair))
    as [sourceAta |] eqn:Hs.
  2:{ left. subst out. unfold WalletFun.transferToken. unfold_effects.
      answered Hc. answered Hk. answered Hr. answered Hm. answered Hs.
      split; [reflexivity | eexists; reflexivity]. }
  destruct (getAssociatedTokenAddress sdk mintPubkey recipientPubkey)
    as [destAta |] eqn:Hd.
  2:{ left. subst out. unfold WalletFun.transferToken. unfold_effects.
      answered Hc. answered Hk. answered Hr. answered Hm. answered Hs. answered Hd.
      split; [reflexivity | eexists; reflexivity]. }
  destruct (getAccountInfo connection sourceAta) as [sourceInfo |] eqn:Hsi.
  2:{ left. subst out. unfold WalletFun.transferToken. unfold_effects.
      answered Hc. answered Hk. answered Hr. answered Hm. answered Hs. answered Hd.
      answered Hsi. split; [reflexivity | eexists; reflexivity]. }
  destruct (getAccountInfo connection destAta) as [destInfo |] eqn:Hdi.
  2:{ left. subst out. unfold WalletFun.transferToken. unfold_effects.
      answered Hc. answered Hk. answered Hr. answered Hm. answered Hs. answered Hd.
      answered Hsi. answered Hdi.
      destruct sourceInfo; split; solve [reflexivity | eexists; reflexivity]. }
  destruct (getMint connection mintPubkey) as [mintInfo |] eqn:Hmi.
  2:{ left. subst out. unfold WalletFun.transferToken. unfold_effects.
      answered Hc. answered Hk. answered Hr. answered Hm. answered Hs. answered Hd.
      answered Hsi. answered Hdi.
      destruct sourceInfo, destInfo; cbv beta iota; cbn [fst snd submitted];
        answered Hmi; split; solve [reflexivity | eexists; reflexivity]. }
  destruct (lt (balance_seen connection sourceAta)
              (smallest_units amount (mint_decimals mintInfo))) eqn:Hlt.
  { left. subst out. unfold WalletFun.transferToken. unfold_effects.
    answered Hc. answered Hk. answered Hr. answered Hm. answered Hs. answered Hd.
    answered Hsi. answered Hdi. unfold balance_seen, smallest_units in Hlt.
    destruct sourceInfo, destInfo; cbv beta iota; cbn [fst snd submitted];
      answered Hmi; rewrite Hlt; split; solve [reflexivity | eexists; reflexivity]. }
  destruct (is_u64 (smallest_units amount (mint_decimals mintInfo))) eqn:Hu64.
  2:{ left. subst out.
      rewrite (transferToken_builder_throws sdk config key rcpt mintStr amount connection
                 senderKeypair recipientPubkey mintPubkey sourceAta destAta sourceInfo
                 destInfo mintInfo Hc Hk Hr Hm Hs Hd Hsi Hdi Hmi st Hlt Hu64).
      split; [reflexivity | eexists; reflexivity]. }
  destruct (is_u8 (mint_decimals mintInfo)) eqn:Hu8.
  2:{ left. subst out. unfold WalletFun.transferToken. unfold_effects.
      answered Hc. answered Hk. answered Hr. answered Hm. answered Hs. answered Hd.
      answered Hsi. answered Hdi. unfold balance_seen, smallest_units in Hlt, Hu64.
      destruct sourceInfo, destInfo; cbv beta iota; cbn [fst snd submitted];
        answered Hmi; rewrite Hlt; cbv beta iota; rewrite Hu64, Hu8;
        split; solve [reflexivity | eexists; reflexivity]. }
  destruct (getLatestBlockhash connection) as [blockhash |] eqn:Hbh.
  2:{ left. subst out. unfold WalletFun.transferToken. unfold_effects.
      answered Hc. answered Hk. answered Hr. answered Hm. answered Hs. answered Hd.
      answered Hsi. answered Hdi. unfold balance_seen, smallest_units in Hlt, Hu64.
      destruct sourceInfo, destInfo; cbv beta iota; cbn [fst snd submitted];
        answered Hmi; rewrite Hlt; cbv beta iota; rewrite Hu64, Hu8; cbv beta iota;
        cbn [fst snd submitted]; answered Hbh;
        split; solve [reflexivity | eexists; reflexivity]. }
  right. exists connection, senderKeypair, recipientPubkey, mintPubkey, sourceAta, destAta,
    sourceInfo, destInfo, mintInfo, blockhash.
  do 10 (split; [first [assumption | reflexivity] |]).
  intros units tx. split; [exact Hlt |]. subst out.
  rewrite (transferToken_runs sdk config key rcpt mintStr amount connection senderKeypair
             recipientPubkey mintPubkey sourceAta destAta sourceInfo destInfo mintInfo
             Hc Hk Hr Hm Hs Hd Hsi Hdi Hmi st blockhash Hlt Hu64 Hu8 Hbh).
  split; reflexivity.
Qed.


(** ** The scripts' [main] functions *)

(** X15: [main] of [walletFun.js] lets no error escape, whatever the node
    answers to each of its four operations; it submits at most one
    transaction, the transfer of 5,000,000 lamports, and none at all when
    the first balance query fails. *)
Theorem walletFun_main_outcome :
  forall (at_start at_transfer after_sender after_recipient : Sdk) (config : Config)
         (st : Process),
  exists st',
    WalletFunScript.main at_start at_transfer after_sender after_recipient config st
    = (Ok tt, st')
    /\ (submitted st' = submitted st
        \/ exists sub fromPubkey toPubkey,
             submitted st' = submitted st ++ [sub]
             /\ instructions (sub_transaction sub)
                = [SystemTransfer fromPubkey toPubkey (of_Z 5000000)])
    /\ (forall error,
          fst (WalletFun.getWalletBalance at_start config
                 "2pkqS8fDtR3vizXJcbVnTfeck2JvYZy3r6wzDH5T9NMv" st) = Throw error ->
          submitted st' = submitted st).
Proof.
  intros s0 s1 s2 s3 config st.
  unfold WalletFunScript.main, WalletFun.getWalletBalance, WalletFun.transferSOL.
  cbv zeta. unfold_effects.
  rewrite (proj1 transferSOL_scenario_amount).
  repeat next_case; eexists; (split; [reflexivity |]);
    cbn [submitted instructions empty_Transaction app]; split;
    try (intros error Herr; discriminate Herr);
    try (intros error Herr; reflexivity);
    first [ left; reflexivity
          | right; do 3 eexists; split; reflexivity ].
Qed.

(** X16: [main] of the extended wallet script lets no error escape and
    submits at most one transaction. *)
Theorem token_main_outcome :
  forall (sdk : Sdk) (config : Config) (st : Process),
  exists st',
    TokenTransferScript.main sdk config st = (Ok tt, st')
    /\ (submitted st' = submitted st
        \/ exists sub, submitted st' = submitted st ++ [sub]).
Proof.
  intros sdk config st.
  unfold TokenTransferScript.main, WalletFun.transferToken.
  cbv zeta. unfold_effects.
  repeat next_case; eexists; (split; [reflexivity |]);
    cbn [submitted];
    first [ left; reflexivity | right; eexists; reflexivity ].
Qed.
